(** * M5Stack button handling: debounce and gesture detection

    Shallow embedding of [src/m5stack/src/buttons.h] and
    [src/m5stack/src/buttons.cpp].  The [ButtonState] struct becomes a
    record, the functions that mutate it through a pointer become
    computations in a small state monad over that record, and the call
    to [millis()] becomes an explicit time argument. *)

From Stdlib Require Import ZArith Bool List Lia.
From Stdlib Require String Ascii DecimalString DecimalPos DecimalZ.
Import String.StringSyntax.
Import ListNotations.
Open Scope Z_scope.

(** ** [unsigned long] arithmetic

    The firmware targets the M5Core2 (ESP32), where [unsigned long] has
    32 bits.  Values are kept in [Z]; subtraction wraps around. *)
Module ULong.

Definition width : Z := 32.
Definition modulus : Z := 2 ^ width.

Definition in_range (z : Z) : Prop := 0 <= z < modulus.

Definition sub (a b : Z) : Z := (a - b) mod modulus.

End ULong.

(** ** The button record, [buttons.h] *)

Record ButtonState : Type := mkButtonState {
  isPressed : bool;
  wasLongPressed : bool;
  wasDoubleClicked : bool;
  pressedTime : Z;
  lastPressTime : Z;
  lastState : bool;
  lastDebounceTime : Z
}.

(** Field assignments [button->f = v]. *)
Definition set_isPressed (v : bool) (b : ButtonState) : ButtonState :=
  mkButtonState v (wasLongPressed b) (wasDoubleClicked b) (pressedTime b)
                (lastPressTime b) (lastState b) (lastDebounceTime b).

Definition set_wasLongPressed (v : bool) (b : ButtonState) : ButtonState :=
  mkButtonState (isPressed b) v (wasDoubleClicked b) (pressedTime b)
                (lastPressTime b) (lastState b) (lastDebounceTime b).

Definition set_wasDoubleClicked (v : bool) (b : ButtonState) : ButtonState :=
  mkButtonState (isPressed b) (wasLongPressed b) v (pressedTime b)
                (lastPressTime b) (lastState b) (lastDebounceTime b).

Definition set_pressedTime (v : Z) (b : ButtonState) : ButtonState :=
  mkButtonState (isPressed b) (wasLongPressed b) (wasDoubleClicked b) v
                (lastPressTime b) (lastState b) (lastDebounceTime b).

Definition set_lastPressTime (v : Z) (b : ButtonState) : ButtonState :=
  mkButtonState (isPressed b) (wasLongPressed b) (wasDoubleClicked b)
                (pressedTime b) v (lastState b) (lastDebounceTime b).

Definition set_lastState (v : bool) (b : ButtonState) : ButtonState :=
  mkButtonState (isPressed b) (wasLongPressed b) (wasDoubleClicked b)
                (pressedTime b) (lastPressTime b) v (lastDebounceTime b).

Definition set_lastDebounceTime (v : Z) (b : ButtonState) : ButtonState :=
  mkButtonState (isPressed b) (wasLongPressed b) (wasDoubleClicked b)
                (pressedTime b) (lastPressTime b) (lastState b) v.

(** ** Computations on one button

    Every function of [buttons.cpp] receives a [ButtonState*]; a
    computation takes the record the pointer refers to and returns its
    result together with the record it leaves behind. *)

Definition Cmd (A : Type) : Type := ButtonState -> A * ButtonState.

Definition ret {A : Type} (a : A) : Cmd A := fun b => (a, b).

Definition bind {A B : Type} (m : Cmd A) (k : A -> Cmd B) : Cmd B :=
  fun b => let (a, b') := m b in k a b'.

Definition get {A : Type} (field : ButtonState -> A) : Cmd A :=
  fun b => (field b, b).

Definition assign (upd : ButtonState -> ButtonState) : Cmd unit :=
  fun b => (tt, upd b).

Definition when (c : bool) (m : Cmd unit) : Cmd unit :=
  if c then m else ret tt.

Definition eval {A : Type} (m : Cmd A) (b : ButtonState) : A := fst (m b).
Definition exec {A : Type} (m : Cmd A) (b : ButtonState) : ButtonState :=
  snd (m b).

Declare Scope cmd_scope.
Delimit Scope cmd_scope with cmd.
Notation "x <- m ;; k" := (bind m (fun x => k))
  (at level 61, m at next level, right associativity) : cmd_scope.
Notation "m ;; k" := (bind m (fun _ => k))
  (at level 61, right associativity) : cmd_scope.

(** ** Configuration, [buttons.cpp] lines 15-17 *)

Definition DEBOUNCE_DELAY : Z := 50.
Definition LONG_PRESS_TIME : Z := 1000.
Definition DOUBLE_CLICK_TIME : Z := 400.

(** ** [processButton], [buttons.cpp] lines 37-79

    [currentTime] is the value [millis()] returns at the call. *)
Definition processButton (currentState : bool) (currentTime : Z) : Cmd unit :=
  (raw <- get lastState ;;
   when (negb (Bool.eqb currentState raw))
        (assign (set_lastDebounceTime currentTime)) ;;
   changed <- get lastDebounceTime ;;
   when (DEBOUNCE_DELAY <? ULong.sub currentTime changed)
        (previousPressed <- get isPressed ;;
         assign (set_isPressed currentState) ;;
         pressed <- get isPressed ;;
         when (pressed && negb previousPressed)
              (assign (set_pressedTime currentTime) ;;
               previousPress <- get lastPressTime ;;
               (if ULong.sub currentTime previousPress <? DOUBLE_CLICK_TIME
                then assign (set_wasDoubleClicked true)
                else assign (set_wasDoubleClicked false)) ;;
               assign (set_lastPressTime currentTime)) ;;
         pressed <- get isPressed ;;
         when (negb pressed && previousPressed)
              (start <- get pressedTime ;;
               let pressDuration := ULong.sub currentTime start in
               if LONG_PRESS_TIME <=? pressDuration
               then assign (set_wasLongPressed true)
               else assign (set_wasLongPressed false))) ;;
   assign (set_lastState currentState))%cmd.

(** ** Queries, [buttons.cpp] lines 81-107 and 127-132 *)

Definition isButtonPressed : Cmd bool := get isPressed.

Definition wasButtonClicked : Cmd bool :=
  (pressed <- get isPressed ;;
   raw <- get lastState ;;
   long <- get wasLongPressed ;;
   if negb pressed && raw && negb long
   then assign (set_lastState false) ;; ret true
   else ret false)%cmd.

Definition wasButtonLongPressed : Cmd bool :=
  (long <- get wasLongPressed ;;
   if long
   then assign (set_wasLongPressed false) ;; ret true
   else ret false)%cmd.

Definition wasButtonDoubleClicked : Cmd bool :=
  (double <- get wasDoubleClicked ;;
   if double
   then assign (set_wasDoubleClicked false) ;; ret true
   else ret false)%cmd.

Definition getButtonPressDuration (currentTime : Z) : Cmd Z :=
  (pressed <- get isPressed ;;
   if pressed
   then start <- get pressedTime ;; ret (ULong.sub currentTime start)
   else ret 0)%cmd.

(** ** The three global buttons, [buttons.cpp] lines 10-35

    The aggregate initialiser [{false, false, false, 0, 0}] names five
    of the seven members; C++ value-initialises the rest, so [lastState]
    is [false] and [lastDebounceTime] is [0]. *)

Definition initial : ButtonState :=
  mkButtonState false false false 0 0 false 0.

Record Buttons : Type := mkButtons {
  buttonA : ButtonState;
  buttonB : ButtonState;
  buttonC : ButtonState
}.

Definition initButtons : Buttons := mkButtons initial initial initial.

(** [updateButtonStates]: the three raw levels are what [M5.BtnX.isPressed()]
    returns after [M5.update()]; each [processButton] reads the clock
    itself. *)
Definition updateButtonStates (rawA rawB rawC : bool) (tA tB tC : Z)
  (g : Buttons) : Buttons :=
  mkButtons (exec (processButton rawA tA) (buttonA g))
            (exec (processButton rawB tB) (buttonB g))
            (exec (processButton rawC tC) (buttonC g)).

(** ** Runs of the polling loop *)

(** What the polling loop can do to one button in one step. *)
Inductive Call : Type :=
| Sample (raw : bool) (now : Z)
| ReadClicked
| ReadLongPressed
| ReadDoubleClicked.

Definition call (c : Call) (b : ButtonState) : ButtonState :=
  match c with
  | Sample raw now => exec (processButton raw now) b
  | ReadClicked => exec wasButtonClicked b
  | ReadLongPressed => exec wasButtonLongPressed b
  | ReadDoubleClicked => exec wasButtonDoubleClicked b
  end.

Fixpoint run (cs : list Call) (b : ButtonState) : ButtonState :=
  match cs with
  | [] => b
  | c :: cs' => run cs' (call c b)
  end.

(** A sample accepts a press when the debounced state goes from released
    to pressed, and a release when it goes from pressed to released. *)
Definition accepts_press (raw : bool) (now : Z) (b : ButtonState) : Prop :=
  isPressed b = false /\ isPressed (exec (processButton raw now) b) = true.

Definition accepts_release (raw : bool) (now : Z) (b : ButtonState) : Prop :=
  isPressed b = true /\ isPressed (exec (processButton raw now) b) = false.

(** The level has been steady long enough: the raw sample equals the
    previous one and more than [DEBOUNCE_DELAY] has passed since the
    last recorded change. *)
Definition steady (raw : bool) (now : Z) (b : ButtonState) : bool :=
  Bool.eqb raw (lastState b) &&
  (DEBOUNCE_DELAY <? ULong.sub now (lastDebounceTime b)).

(** ** Predicates on runs *)

(** A run made of [processButton] calls only, each given by its raw
    level and its clock reading. *)
Definition samples (ss : list (bool * Z)) : list Call :=
  map (fun s => Sample (fst s) (snd s)) ss.

(** The clock readings of the samples that record a change of the raw
    level, in order. *)
Fixpoint toggles (ss : list (bool * Z)) (b : ButtonState) : list Z :=
  match ss with
  | [] => []
  | (raw, now) :: ss' =>
      let rest := toggles ss' (exec (processButton raw now) b) in
      if Bool.eqb raw (lastState b) then rest else now :: rest
  end.

(** Each reading of the list comes less than [d] after the one before. *)
Fixpoint gaps_below (d : Z) (ts : list Z) : Prop :=
  match ts with
  | [] => True
  | t1 :: ts' =>
      match ts' with
      | [] => True
      | t2 :: _ => ULong.sub t2 t1 < d
      end /\ gaps_below d ts'
  end.

(** The debounced state and the gesture data a run must not touch while
    the signal bounces. *)
Definition same_gestures (b b' : ButtonState) : Prop :=
  isPressed b' = isPressed b /\
  wasLongPressed b' = wasLongPressed b /\
  wasDoubleClicked b' = wasDoubleClicked b /\
  pressedTime b' = pressedTime b /\
  lastPressTime b' = lastPressTime b.

(** No sample of the run accepts a press; the queries may be called
    freely in between. *)
Fixpoint no_press_accepted (cs : list Call) (b : ButtonState) : Prop :=
  match cs with
  | [] => True
  | c :: cs' =>
      match c with
      | Sample raw now => ~ accepts_press raw now b
      | _ => True
      end /\ no_press_accepted cs' (call c b)
  end.

(** Two records that agree on every field but, possibly, one. *)
Definition same_but_wasLongPressed (b b' : ButtonState) : Prop :=
  isPressed b' = isPressed b /\
  wasDoubleClicked b' = wasDoubleClicked b /\
  pressedTime b' = pressedTime b /\
  lastPressTime b' = lastPressTime b /\
  lastState b' = lastState b /\
  lastDebounceTime b' = lastDebounceTime b.

Definition same_but_wasDoubleClicked (b b' : ButtonState) : Prop :=
  isPressed b' = isPressed b /\
  wasLongPressed b' = wasLongPressed b /\
  pressedTime b' = pressedTime b /\
  lastPressTime b' = lastPressTime b /\
  lastState b' = lastState b /\
  lastDebounceTime b' = lastDebounceTime b.

Definition same_but_lastState (b b' : ButtonState) : Prop :=
  isPressed b' = isPressed b /\
  wasLongPressed b' = wasLongPressed b /\
  wasDoubleClicked b' = wasDoubleClicked b /\
  pressedTime b' = pressedTime b /\
  lastPressTime b' = lastPressTime b /\
  lastDebounceTime b' = lastDebounceTime b.

(** No sample of the run accepts the release of a hold of
    [LONG_PRESS_TIME] or more (respectively a press less than
    [DOUBLE_CLICK_TIME] after the previous one); other releases and
    presses, and the queries, may come in between. *)
Fixpoint no_long_press_accepted (cs : list Call) (b : ButtonState) : Prop :=
  match cs with
  | [] => True
  | c :: cs' =>
      match c with
      | Sample raw now =>
          ~ (accepts_release raw now b /\
             LONG_PRESS_TIME <= ULong.sub now (pressedTime b))
      | _ => True
      end /\ no_long_press_accepted cs' (call c b)
  end.

Fixpoint no_double_click_accepted (cs : list Call) (b : ButtonState) : Prop :=
  match cs with
  | [] => True
  | c :: cs' =>
      match c with
      | Sample raw now =>
          ~ (accepts_press raw now b /\
             ULong.sub now (lastPressTime b) < DOUBLE_CLICK_TIME)
      | _ => True
      end /\ no_double_click_accepted cs' (call c b)
  end.

(** No sample of the run finds a level that has rested for more than
    [DEBOUNCE_DELAY] on another value than [stable]: every sample
    records a change of the raw level, or comes at most [DEBOUNCE_DELAY]
    after the last recorded change, or sees the level [stable]. *)
Fixpoint settles (stable : bool) (ss : list (bool * Z)) (b : ButtonState)
  : Prop :=
  match ss with
  | [] => True
  | (raw, now) :: ss' =>
      (raw <> lastState b \/
       ULong.sub now (lastDebounceTime b) <= DEBOUNCE_DELAY \/
       raw = stable) /\
      settles stable ss' (exec (processButton raw now) b)
  end.

(** What may be called while a changed level waits to be accepted: a
    sample that sees the same level [raw] at most [DEBOUNCE_DELAY] after
    the change recorded at [t0], or a flag query, or the click query
    when the level is low.  With the level high the click query is not
    among them: it can overwrite [lastState]. *)
Definition waits_for (raw : bool) (t0 : Z) (c : Call) : Prop :=
  match c with
  | Sample r t => r = raw /\ ULong.sub t t0 <= DEBOUNCE_DELAY
  | ReadClicked => raw = false
  | _ => True
  end.

(** ** Concrete runs *)

(** A press seen at 0 ms and accepted at 100 ms, and the raw level seen
    going down at 200 ms; a sample at 300 ms accepts the release of a
    200 ms hold. *)
Definition short_press : list Call :=
  [Sample true 0; Sample true 100; Sample false 200].

(** The same with the raw level going down at 1200 ms; a sample at
    1300 ms accepts the release of a 1200 ms hold. *)
Definition long_press : list Call :=
  [Sample true 0; Sample true 100; Sample false 1200].

(** A short press, released, and the raw level going up again at
    1000 ms; a sample at 1100 ms accepts a second press 1000 ms after
    the first, whose double-click flag was never read. *)
Definition two_spaced_presses : list Call :=
  [Sample true 0; Sample true 100; Sample false 200; Sample false 300;
   Sample true 1000].

(** A 1200 ms hold, released and never read, then a second press
    accepted at 2100 ms with the raw level going down at 2200 ms; a
    sample at 2300 ms accepts the release of a 200 ms hold. *)
Definition long_then_short : list Call :=
  [Sample true 0; Sample true 100; Sample false 1200; Sample false 1300;
   Sample true 2000; Sample true 2100; Sample false 2200].

(** The release of a 1200 ms hold has just been accepted; the press that
    began it had set the double-click flag, and nothing was read. *)
Definition long_press_released : ButtonState :=
  run (long_press ++ [Sample false 1300]) initial.

(** The 30 ms bounce: the raw level goes up at 0 ms and down at 30 ms,
    and is then sampled at the given later times while it stays down. *)
Definition bounce_30ms (later : list Z) : list (bool * Z) :=
  (true, 0) :: (false, 30) :: map (fun t => (false, t)) later.

(** Three changes of the raw level 30 ms apart, the last one up, and a
    sample at 200 ms with the level still up. *)
Definition bounce_then_hold : list (bool * Z) :=
  [(true, 0); (false, 30); (true, 60); (true, 200)].

(** Samples and a flag query while the level that went up at 0 ms
    waits to be accepted. *)
Definition waiting_calls : list Call :=
  [Sample true 20; ReadLongPressed; Sample true 50].

(** Changes of the raw level at 0 and 20 ms, after which it rests low
    and is sampled at 200 and 300 ms. *)
Definition bounce_then_rest : list (bool * Z) :=
  [(true, 0); (false, 20); (false, 200); (false, 300)].

(** A press accepted at 1500 ms and the release of its 200 ms hold
    accepted at 1700 ms. *)
Definition short_press_between : list Call :=
  [Sample true 1400; Sample true 1500; Sample false 1600; Sample false 1700].

(** ** Further predicates on runs *)

(** The call is a query, or a sample that sees the raw level low. *)
Definition raw_low (c : Call) : Prop :=
  match c with
  | Sample raw _ => raw = false
  | _ => True
  end.

(** The call is a query, or a sample that sees the raw level high. *)
Definition raw_high (c : Call) : Prop :=
  match c with
  | Sample raw _ => raw = true
  | _ => True
  end.

(** The clock readings of the run's samples start at or after [t],
    never go back and have not wrapped around. *)
Fixpoint clock_from (t : Z) (cs : list Call) : Prop :=
  match cs with
  | [] => True
  | Sample _ now :: cs' => t <= now < ULong.modulus /\ clock_from now cs'
  | _ :: cs' => clock_from t cs'
  end.

(** What a query of the run returns; a sample returns nothing. *)
Definition answer (c : Call) (b : ButtonState) : option bool :=
  match c with
  | Sample _ _ => None
  | ReadClicked => Some (eval wasButtonClicked b)
  | ReadLongPressed => Some (eval wasButtonLongPressed b)
  | ReadDoubleClicked => Some (eval wasButtonDoubleClicked b)
  end.

Fixpoint answers (cs : list Call) (b : ButtonState) : list (option bool) :=
  match cs with
  | [] => []
  | c :: cs' => answer c b :: answers cs' (call c b)
  end.

(** The same history [d] milliseconds later on the 32-bit clock: every
    clock reading and every stored timestamp is moved by [d], wrapping
    around at the modulus. *)
Definition later (d t : Z) : Z := (t + d) mod ULong.modulus.

Definition later_state (d : Z) (b : ButtonState) : ButtonState :=
  mkButtonState (isPressed b) (wasLongPressed b) (wasDoubleClicked b)
                (later d (pressedTime b)) (later d (lastPressTime b))
                (lastState b) (later d (lastDebounceTime b)).

Definition later_call (d : Z) (c : Call) : Call :=
  match c with
  | Sample raw now => Sample raw (later d now)
  | _ => c
  end.

(** ** The per-button entry points, [buttons.cpp] lines 109-136

    Each of them passes the address of one global record to the
    function that takes a [ButtonState*]. *)

Definition onButtonA {A : Type} (m : Cmd A) (g : Buttons) : A * Buttons :=
  let (r, a) := m (buttonA g) in (r, mkButtons a (buttonB g) (buttonC g)).

Definition onButtonB {A : Type} (m : Cmd A) (g : Buttons) : A * Buttons :=
  let (r, b) := m (buttonB g) in (r, mkButtons (buttonA g) b (buttonC g)).

Definition onButtonC {A : Type} (m : Cmd A) (g : Buttons) : A * Buttons :=
  let (r, c) := m (buttonC g) in (r, mkButtons (buttonA g) (buttonB g) c).

Definition isButtonAPressed := onButtonA isButtonPressed.
Definition isButtonBPressed := onButtonB isButtonPressed.
Definition isButtonCPressed := onButtonC isButtonPressed.

Definition wasButtonAClicked := onButtonA wasButtonClicked.
Definition wasButtonBClicked := onButtonB wasButtonClicked.
Definition wasButtonCClicked := onButtonC wasButtonClicked.

Definition wasButtonALongPressed := onButtonA wasButtonLongPressed.
Definition wasButtonBLongPressed := onButtonB wasButtonLongPressed.
Definition wasButtonCLongPressed := onButtonC wasButtonLongPressed.

Definition wasButtonADoubleClicked := onButtonA wasButtonDoubleClicked.
Definition wasButtonBDoubleClicked := onButtonB wasButtonDoubleClicked.
Definition wasButtonCDoubleClicked := onButtonC wasButtonDoubleClicked.

Definition getButtonAPressDuration (currentTime : Z) :=
  onButtonA (getButtonPressDuration currentTime).
Definition getButtonBPressDuration (currentTime : Z) :=
  onButtonB (getButtonPressDuration currentTime).
Definition getButtonCPressDuration (currentTime : Z) :=
  onButtonC (getButtonPressDuration currentTime).

(** What a sketch can do to the three buttons in one step: one
    [updateButtonStates] tick, or one of the queries above. *)
Inductive GlobalCall : Type :=
| Update (rawA rawB rawC : bool) (tA tB tC : Z)
| AClicked | BClicked | CClicked
| ALongPressed | BLongPressed | CLongPressed
| ADoubleClicked | BDoubleClicked | CDoubleClicked.

Definition global_call (c : GlobalCall) (g : Buttons) : Buttons :=
  match c with
  | Update rawA rawB rawC tA tB tC =>
      updateButtonStates rawA rawB rawC tA tB tC g
  | AClicked => snd (wasButtonAClicked g)
  | BClicked => snd (wasButtonBClicked g)
  | CClicked => snd (wasButtonCClicked g)
  | ALongPressed => snd (wasButtonALongPressed g)
  | BLongPressed => snd (wasButtonBLongPressed g)
  | CLongPressed => snd (wasButtonCLongPressed g)
  | ADoubleClicked => snd (wasButtonADoubleClicked g)
  | BDoubleClicked => snd (wasButtonBDoubleClicked g)
  | CDoubleClicked => snd (wasButtonCDoubleClicked g)
  end.

Fixpoint global_run (cs : list GlobalCall) (g : Buttons) : Buttons :=
  match cs with
  | [] => g
  | c :: cs' => global_run cs' (global_call c g)
  end.

(** The calls of a global run that reach button A, B and C. *)
Definition calls_of_A (c : GlobalCall) : list Call :=
  match c with
  | Update rawA _ _ tA _ _ => [Sample rawA tA]
  | AClicked => [ReadClicked]
  | ALongPressed => [ReadLongPressed]
  | ADoubleClicked => [ReadDoubleClicked]
  | _ => []
  end.

Definition calls_of_B (c : GlobalCall) : list Call :=
  match c with
  | Update _ rawB _ _ tB _ => [Sample rawB tB]
  | BClicked => [ReadClicked]
  | BLongPressed => [ReadLongPressed]
  | BDoubleClicked => [ReadDoubleClicked]
  | _ => []
  end.

Definition calls_of_C (c : GlobalCall) : list Call :=
  match c with
  | Update _ _ rawC _ _ tC => [Sample rawC tC]
  | CClicked => [ReadClicked]
  | CLongPressed => [ReadLongPressed]
  | CDoubleClicked => [ReadDoubleClicked]
  | _ => []
  end.

(** Concrete runs for the properties of this part. *)
Definition idle_run : list Call :=
  [Sample false 10; ReadClicked; Sample false 4000; ReadLongPressed;
   ReadDoubleClicked].

(** A press accepted at 100 ms and a second one accepted at 400 ms. *)
Definition double_press : list Call :=
  [Sample false 200; Sample false 260; Sample true 340].

Definition three_buttons_run : list GlobalCall :=
  [Update true false false 0 0 0; BClicked; Update true false true 100 101 102;
   AClicked; CLongPressed; Update false false true 200 201 202].

(** The clock reading of the last sample of the run, or [t] when the
    run has no sample. *)
Fixpoint last_clock (t : Z) (cs : list Call) : Z :=
  match cs with
  | [] => t
  | Sample _ now :: cs' => last_clock now cs'
  | _ :: cs' => last_clock t cs'
  end.

(** What the timestamps of a record satisfy at clock reading [t] under
    a clock that never went back: they lie in the past, and while the
    button counts as pressed with the raw level already down, the level
    went down after the press was accepted. *)
Definition clock_invariant (t : Z) (b : ButtonState) : Prop :=
  0 <= pressedTime b <= t /\
  0 <= lastDebounceTime b <= t /\
  (isPressed b = true -> lastState b = false ->
   pressedTime b <= lastDebounceTime b).

(** A press accepted at 100 ms, held, with a query on the way. *)
Definition held_calls : list Call :=
  [Sample true 500; ReadDoubleClicked; Sample false 1500].

(** * The sketches around the button module

    [src/m5stack/src/main.cpp] and [src/m5stack/examples/auto_discover.cpp]
    talk to the display, the WiFi radio and an HTTP server.  What a
    function writes to them is kept as a log of events, in order; what
    it reads from them (a status code, a response body, the radio's
    state, the clock) is an argument of the function. *)

Module Arduino.
Import String.

Infix "+++" := String.append (at level 60, right associativity).

(** The characters the sources write with a backslash. *)
Definition quote : string :=
  String.String (Ascii.ascii_of_nat 34) String.EmptyString.
Definition newline : string :=
  String.String (Ascii.ascii_of_nat 10) String.EmptyString.

(** [String(i)] for an [int]: the decimal digits, with a minus sign
    for a negative number. *)
Definition String_of_int (i : Z) : string :=
  DecimalString.NilZero.string_of_int (Z.to_int i).

(** [s.indexOf(t)]: where [t] first occurs in [s], or -1. *)
Definition indexOf (s t : string) : Z :=
  match String.index 0 t s with
  | Some n => Z.of_nat n
  | None => -1
  end.

Inductive Color : Type := BLACK | WHITE | RED | GREEN | YELLOW.

Inductive Event : Type :=
| M5Begin
| M5Update
| LcdClear
| LcdSetTextSize (n : Z)
| LcdSetTextColor (fg : Color)
| LcdSetTextColorOn (fg bg : Color)
| LcdSetCursor (x y : Z)
| LcdPrint (s : string)
| LcdPrintln (s : string)
| LcdPrintf (format arg : string)
| LcdFillRect (x y w h : Z) (c : Color)
| WiFiBegin
| HttpBegin (url : string)
| HttpSetTimeout (ms : Z)
| HttpAddHeader (name value : string)
| HttpGET
| HttpPOST (payload : string)
| HttpGetString
| HttpEnd
| Delay (ms : Z).

Definition is_request (e : Event) : bool :=
  match e with
  | HttpGET | HttpPOST _ => true
  | _ => false
  end.

Definition delay_of (e : Event) : Z :=
  match e with
  | Delay ms => ms
  | _ => 0
  end.

(** How many HTTP requests a log holds. *)
Definition requests_made (log : list Event) : nat :=
  List.length (List.filter is_request log).

(** The milliseconds a log spends in [delay]. *)
Definition total_delay (log : list Event) : Z :=
  fold_right (fun e acc => delay_of e + acc) 0 log.

End Arduino.

(** ** [main.cpp] *)

Module Sketch.
Import String Arduino.

Definition API_BASE_URL : string := "http://192.168.10.7:8000"%string.
Definition API_CHECK_INTERVAL : Z := 5000.

(** The global variables of the sketch, and [lastUpdate], the static
    local of [updateDisplay]. *)
Record App : Type := mkApp {
  wifiConnected : bool;
  currentVideoId : string;
  playbackStatus : string;
  lastApiCheck : Z;
  lastUpdate : Z
}.

(** The globals as their initialisers leave them. *)
Definition boot : App := mkApp false EmptyString "idle"%string 0 0.

Definition set_wifiConnected (v : bool) (a : App) : App :=
  mkApp v (currentVideoId a) (playbackStatus a) (lastApiCheck a)
        (lastUpdate a).
Definition set_currentVideoId (v : string) (a : App) : App :=
  mkApp (wifiConnected a) v (playbackStatus a) (lastApiCheck a)
        (lastUpdate a).
Definition set_playbackStatus (v : string) (a : App) : App :=
  mkApp (wifiConnected a) (currentVideoId a) v (lastApiCheck a)
        (lastUpdate a).
Definition set_lastApiCheck (v : Z) (a : App) : App :=
  mkApp (wifiConnected a) (currentVideoId a) (playbackStatus a) v
        (lastUpdate a).
Definition set_lastUpdate (v : Z) (a : App) : App :=
  mkApp (wifiConnected a) (currentVideoId a) (playbackStatus a)
        (lastApiCheck a) v.

(** A function of the sketch: from the globals to its result, the
    globals it leaves and the events it caused. *)
Definition Run (A : Type) : Type := App -> A * App * list Event.

Definition ret {A : Type} (x : A) : Run A := fun a => (x, a, []).

Definition bind {A B : Type} (m : Run A) (k : A -> Run B) : Run B :=
  fun a =>
    let '(x, a1, log1) := m a in
    let '(y, a2, log2) := k x a1 in
    (y, a2, log1 ++ log2).

Definition emit (e : Event) : Run unit := fun a => (tt, a, [e]).
Definition read {A : Type} (field : App -> A) : Run A :=
  fun a => (field a, a, []).
Definition assign (upd : App -> App) : Run unit := fun a => (tt, upd a, []).

(** A computation that touches no global: its result and its events. *)
Definition logged {A : Type} (r : A * list Event) : Run A :=
  fun a => (fst r, a, snd r).

Definition result {A : Type} (r : A * App * list Event) : A := fst (fst r).
Definition globals {A : Type} (r : A * App * list Event) : App :=
  snd (fst r).
Definition events {A : Type} (r : A * App * list Event) : list Event :=
  snd r.

Declare Scope run_scope.
Delimit Scope run_scope with run.
Notation "x <- m ;; k" := (bind m (fun x => k))
  (at level 61, m at next level, right associativity) : run_scope.
Notation "m ;; k" := (bind m (fun _ => k))
  (at level 61, right associativity) : run_scope.

(** The body of the POST request, line 244. *)
Definition jsonPayload (command : string) : string :=
  ("{" +++ quote +++ "action" +++ quote +++ ":" +++ quote)
  +++ command +++ (quote +++ "}").

(** [sendControlCommand], lines 229-271.  [httpCode] is what
    [http.POST] returns. *)
Definition sendControlCommand (command : string) (httpCode : Z) : Run unit :=
  (online <- read wifiConnected ;;
   if negb online then
     emit (LcdSetCursor 10 180) ;;
     emit (LcdSetTextColorOn RED BLACK) ;;
     emit (LcdPrintln "Error: No WiFi")
   else
     let url := API_BASE_URL +++ "/api/m5stack/control" in
     emit (HttpBegin url) ;;
     emit (HttpAddHeader "Content-Type" "application/json") ;;
     emit (HttpPOST (jsonPayload command)) ;;
     emit (LcdFillRect 0 180 320 20 BLACK) ;;
     emit (LcdSetCursor 10 180) ;;
     (if httpCode =? 200 then
        emit (LcdSetTextColorOn GREEN BLACK) ;;
        emit (LcdPrintln "Command sent successfully") ;;
        (if String.eqb command "play" then
           assign (set_playbackStatus "playing")
         else if String.eqb command "pause" then
           assign (set_playbackStatus "paused")
         else if String.eqb command "stop" then
           assign (set_playbackStatus "idle") ;;
           assign (set_currentVideoId EmptyString)
         else ret tt)
      else
        emit (LcdSetTextColorOn RED BLACK) ;;
        emit (LcdPrint "Error: HTTP ") ;;
        emit (LcdPrintln (String_of_int httpCode))) ;;
     emit HttpEnd)%run.

(** [handleButtons], lines 161-194.  [pressedA], [pressedB] and
    [pressedC] are what [M5.BtnX.wasPressed()] returns; [codeA], [codeB]
    and [codeC] are the status codes the server gives to the command of
    each button, should it be sent. *)
Definition handleButtons (pressedA pressedB pressedC : bool)
  (codeA codeB codeC : Z) : Run unit :=
  ((if pressedA then
      emit (LcdFillRect 0 160 320 20 BLACK) ;;
      emit (LcdSetCursor 10 160) ;;
      emit (LcdSetTextColorOn YELLOW BLACK) ;;
      status <- read playbackStatus ;;
      if String.eqb status "playing" then
        emit (LcdPrintln "Sending: Pause") ;;
        sendControlCommand "pause" codeA
      else
        emit (LcdPrintln "Sending: Play") ;;
        sendControlCommand "play" codeA
    else ret tt) ;;
   (if pressedB then
      emit (LcdFillRect 0 160 320 20 BLACK) ;;
      emit (LcdSetCursor 10 160) ;;
      emit (LcdSetTextColorOn YELLOW BLACK) ;;
      emit (LcdPrintln "Sending: Stop") ;;
      sendControlCommand "stop" codeB
    else ret tt) ;;
   (if pressedC then
      emit (LcdFillRect 0 160 320 20 BLACK) ;;
      emit (LcdSetCursor 10 160) ;;
      emit (LcdSetTextColorOn YELLOW BLACK) ;;
      emit (LcdPrintln "Sending: Next") ;;
      sendControlCommand "next" codeC
    else ret tt))%run.

(** What ArduinoJson makes of a response body: [deserializeJson] fails,
    or the document has no [session] member or a null one, or it has
    one, with what [as<String>()] gives for its [playback_status] and
    [video_id]. *)
Inductive Parsed : Type :=
| ParseError
| NoSession
| Session (playback_status video_id : string).

(** [checkApiStatus], lines 196-227.  [httpCode] is what [http.GET]
    returns and [parsed] what the body, read only after a 200, parses
    to. *)
Definition checkApiStatus (httpCode : Z) (parsed : Parsed) : Run unit :=
  (online <- read wifiConnected ;;
   if negb online then ret tt
   else
     let url := API_BASE_URL +++ "/api/display/status" in
     emit (HttpBegin url) ;;
     emit HttpGET ;;
     (if httpCode =? 200 then
        emit HttpGetString ;;
        match parsed with
        | ParseError => ret tt
        | Session playback_status video_id =>
            assign (set_playbackStatus playback_status) ;;
            assign (set_currentVideoId video_id)
        | NoSession =>
            assign (set_playbackStatus "idle") ;;
            assign (set_currentVideoId EmptyString)
        end
      else ret tt) ;;
     emit HttpEnd)%run.

(** The waiting loop of [setupWiFi], lines 81-86.  [status k] tells
    whether the [k]-th call of [WiFi.status()] returns [WL_CONNECTED];
    the loop makes one call per test.  [left] is how many attempts
    remain before [attempts < 30] fails. *)
Fixpoint awaitWiFi (status : nat -> bool) (left attempts : nat)
  : nat * list Event :=
  if status attempts then (attempts, [])
  else
    match left with
    | O => (attempts, [])
    | S left' =>
        let (n, log) := awaitWiFi status left' (S attempts) in
        (n, Delay 500 :: LcdPrint "." :: log)
    end.

(** [setupWiFi], lines 75-103.  [localIP] is the text
    [M5.Lcd.println(WiFi.localIP())] prints.  The two arguments of
    [WiFi.begin] are constants of the sketch and are not recorded. *)
Definition setupWiFi (status : nat -> bool) (localIP : string) : Run unit :=
  (emit (LcdSetCursor 10 50) ;;
   emit (LcdPrintln "Connecting to WiFi...") ;;
   emit WiFiBegin ;;
   attempts <- logged (awaitWiFi status 30 0) ;;
   (if status (S attempts) then
      assign (set_wifiConnected true) ;;
      emit (LcdPrintln (newline +++ "WiFi Connected!")) ;;
      emit (LcdPrint "IP: ") ;;
      emit (LcdPrintln localIP) ;;
      emit (LcdPrint "API: ") ;;
      emit (LcdPrintln API_BASE_URL)
    else
      emit (LcdPrintln (newline +++ "WiFi Connection Failed!")) ;;
      assign (set_wifiConnected false)) ;;
   emit (Delay 2000))%run.

(** [updateDisplay], lines 105-159.  [t1] and [t2] are the two
    readings of [millis()], the second one taken only when the first
    passes the test. *)
Definition updateDisplay (t1 t2 : Z) : Run unit :=
  (updated <- read lastUpdate ;;
   if ULong.sub t1 updated <? 1000 then ret tt
   else
     assign (set_lastUpdate t2) ;;
     emit (LcdFillRect 0 70 320 120 BLACK) ;;
     emit (LcdSetCursor 10 70) ;;
     emit (LcdSetTextSize 2) ;;
     online <- read wifiConnected ;;
     (if negb online then
        emit (LcdSetTextColorOn RED BLACK) ;;
        emit (LcdPrintln "WiFi Disconnected")
      else
        emit (LcdSetTextColorOn GREEN BLACK) ;;
        emit (LcdPrintln "System Online") ;;
        emit (LcdSetCursor 10 100) ;;
        emit (LcdSetTextColorOn WHITE BLACK) ;;
        emit (LcdPrint "Status: ") ;;
        status <- read playbackStatus ;;
        (if String.eqb status "playing" then
           emit (LcdSetTextColorOn GREEN BLACK) ;;
           emit (LcdPrintln "Playing")
         else if String.eqb status "paused" then
           emit (LcdSetTextColorOn YELLOW BLACK) ;;
           emit (LcdPrintln "Paused")
         else
           emit (LcdSetTextColorOn WHITE BLACK) ;;
           emit (LcdPrintln "Idle")) ;;
        video <- read currentVideoId ;;
        (if negb (String.eqb video EmptyString) then
           emit (LcdSetCursor 10 130) ;;
           emit (LcdSetTextColorOn WHITE BLACK) ;;
           emit (LcdSetTextSize 1) ;;
           emit (LcdPrint "Video: ") ;;
           emit (LcdPrintln video)
         else ret tt)) ;;
     emit (LcdSetCursor 10 200) ;;
     emit (LcdSetTextSize 1) ;;
     emit (LcdSetTextColorOn WHITE BLACK) ;;
     emit (LcdPrintln "A: Play/Pause  B: Stop  C: Next"))%run.

(** What one pass of [loop] reads from outside: the buttons, the
    server's answers to the commands and to the status request, and the
    clock at each [millis()] call. *)
Record Inputs : Type := mkInputs {
  pressedA : bool;
  pressedB : bool;
  pressedC : bool;
  codeA : Z;
  codeB : Z;
  codeC : Z;
  clockAtCheck : Z;
  statusCode : Z;
  statusBody : Parsed;
  clockAfterCheck : Z;
  clockAtDisplay : Z;
  clockAfterDisplay : Z
}.

(** [loop], lines 57-73. *)
Definition loop (i : Inputs) : Run unit :=
  (emit M5Update ;;
   handleButtons (pressedA i) (pressedB i) (pressedC i)
                 (codeA i) (codeB i) (codeC i) ;;
   checked <- read lastApiCheck ;;
   (if API_CHECK_INTERVAL <? ULong.sub (clockAtCheck i) checked then
      checkApiStatus (statusCode i) (statusBody i) ;;
      assign (set_lastApiCheck (clockAfterCheck i))
    else ret tt) ;;
   updateDisplay (clockAtDisplay i) (clockAfterDisplay i) ;;
   emit (Delay 100))%run.

(** [setup], lines 36-55. *)
Definition setup (status : nat -> bool) (localIP : string) : Run unit :=
  (emit M5Begin ;;
   emit (LcdSetTextSize 2) ;;
   emit (LcdSetTextColorOn WHITE BLACK) ;;
   emit LcdClear ;;
   emit (LcdSetCursor 10 10) ;;
   emit (LcdPrintln "AI Dynamic Painting") ;;
   emit (LcdPrintln "Phase 1 - Initializing...") ;;
   setupWiFi status localIP ;;
   emit (LcdSetCursor 10 200) ;;
   emit (LcdSetTextSize 1) ;;
   emit (LcdPrintln "A: Play/Pause  B: Stop  C: Next"))%run.

(** The sketch as the Arduino core runs it: [setup] once, then [loop]
    over and over, here once per element of [inputs]. *)
Fixpoint loops (inputs : list Inputs) : Run unit :=
  match inputs with
  | [] => ret tt
  | i :: rest => (loop i ;; loops rest)%run
  end.

Definition sketch (status : nat -> bool) (localIP : string)
  (inputs : list Inputs) : Run unit :=
  (setup status localIP ;; loops inputs)%run.

(** A function of the sketch that leaves [wifiConnected] alone and,
    when it is false, makes no request and keeps the playback status and
    the video id. *)
Definition wifi_bound {A : Type} (m : Run A) : Prop :=
  forall a,
    wifiConnected (globals (m a)) = wifiConnected a /\
    (wifiConnected a = false ->
     List.filter is_request (events (m a)) = [] /\
     playbackStatus (globals (m a)) = playbackStatus a /\
     currentVideoId (globals (m a)) = currentVideoId a).

(** A function of the sketch that leaves one of the globals as it was. *)
Definition keeps {A B : Type} (field : App -> B) (m : Run A) : Prop :=
  forall a, field (globals (m a)) = field a.

(** The command button A sends: it depends on the playback status. *)
Definition commandOfA (a : App) : string :=
  if String.eqb (playbackStatus a) "playing" then "pause" else "play".

(** A status the radio reports from its [k]-th poll on. *)
Definition up_from (k : nat) (j : nat) : bool := Nat.leb k j.

End Sketch.

(** ** [examples/auto_discover.cpp] *)

Module Discover.
Import String Arduino.

Definition ip_range : string := "192.168.10"%string.
Definition start_ip : Z := 1.
Definition end_ip : Z := 254.
Definition api_port : Z := 8000.

(** The address and the URL that the loop body builds for host [i],
    lines 20-21. *)
Definition test_ip (i : Z) : string := ip_range +++ "." +++ String_of_int i.

Definition test_url (i : Z) : string :=
  "http://" +++ test_ip i +++ ":" +++ String_of_int api_port
  +++ "/api/system/health".

(** The loop of [findRaspberryPi], lines 19-50, from host [i] on with
    [count] hosts left to try, and what follows it.  [http_get url]
    gives the status code [http.GET()] returns for that URL and the body
    [http.getString()] reads after a 200. *)
Fixpoint scan (http_get : string -> Z * string) (count : nat) (i : Z)
  : string * list Event :=
  match count with
  | O =>
      (EmptyString,
       [LcdSetCursor 0 80; LcdSetTextColor RED;
        LcdPrintln "Raspberry Pi が見つかりません"])
  | S count' =>
      let probe :=
        [LcdSetCursor 0 60; LcdPrintf "チェック中: %s" (test_ip i);
         HttpBegin (test_url i); HttpSetTimeout 1000; HttpGET] in
      let (httpCode, response) := http_get (test_url i) in
      if httpCode =? 200 then
        if 0 <? indexOf response "api_status" then
          (test_ip i,
           probe ++ [HttpGetString; LcdSetCursor 0 80; LcdSetTextColor GREEN;
                     LcdPrintf "発見！: %s" (test_ip i); HttpEnd])
        else
          let (found, log) := scan http_get count' (i + 1) in
          (found, probe ++ [HttpGetString; HttpEnd; Delay 100] ++ log)
      else
        let (found, log) := scan http_get count' (i + 1) in
        (found, probe ++ [HttpEnd; Delay 100] ++ log)
  end.

(** [findRaspberryPi], lines 16-51. *)
Definition findRaspberryPi (http_get : string -> Z * string)
  : string * list Event :=
  let (found, log) :=
    scan http_get (Z.to_nat (end_ip - start_ip + 1)) start_ip in
  (found, LcdPrintln "Raspberry Pi を検索中..." :: log).

(** Host [i] passes the test of the loop body: it answers 200 and
    [api_status] occurs in the body at an index above 0. *)
Definition answers_api (http_get : string -> Z * string) (i : Z) : bool :=
  let (httpCode, response) := http_get (test_url i) in
  (httpCode =? 200) && (0 <? indexOf response "api_status").

(** A network in which only the host at 192.168.10.7 answers, with a
    JSON body. *)
Definition only_host_7 (url : string) : Z * string :=
  if String.eqb url (test_url 7)
  then (200, "{" +++ quote +++ "api_status" +++ quote +++ ":1}")
  else (-1, EmptyString).

(** A network in which host 7 answers 200 with a body that begins with
    [api_status], host 9 with a JSON body, and no other host answers. *)
Definition bare_7_json_9 (url : string) : Z * string :=
  if String.eqb url (test_url 7) then (200, "api_status: healthy"%string)
  else if String.eqb url (test_url 9)
       then (200, "{" +++ quote +++ "api_status" +++ quote +++ ":1}")
       else (-1, EmptyString).

End Discover.


(** ** Facts on [unsigned long] subtraction *)
Module ULongFacts.
Import ULong.

Lemma sub_diag (a : Z) : sub a a = 0.
Proof. unfold sub. now rewrite Z.sub_diag. Qed.

(** With a clock that has not wrapped between the two readings the
    subtraction is the mathematical one. *)
Lemma sub_monotone (a b : Z) :
  in_range a -> 0 <= b <= a -> sub a b = a - b.
Proof.
  unfold in_range, sub. intros Ha Hb.
  apply Z.mod_small. lia.
Qed.

Lemma sub_zero (a : Z) : in_range a -> sub a 0 = a.
Proof.
  intros Ha. rewrite sub_monotone; [lia | exact Ha |].
  unfold in_range in Ha. lia.
Qed.

End ULongFacts.

(** ** What one [processButton] call does to each field *)

(** Unfold the monadic code down to records and conditionals, leaving
    the integer comparisons folded. *)
Ltac unfold_cmd :=
  cbv beta iota zeta delta
    [exec eval fst snd bind get assign when ret steady
     processButton wasButtonClicked wasButtonLongPressed
     wasButtonDoubleClicked isButtonPressed getButtonPressDuration
     set_isPressed set_wasLongPressed set_wasDoubleClicked set_pressedTime
     set_lastPressTime set_lastState set_lastDebounceTime
     isPressed wasLongPressed wasDoubleClicked pressedTime lastPressTime
     lastState lastDebounceTime Bool.eqb negb andb orb].

Ltac split_ifs :=
  repeat (match goal with
          | |- context [if ?c then _ else _] => destruct c eqn:?
          end; unfold_cmd).

(** Case analysis on the record and on the raw level, then on every
    comparison the code makes. *)
Ltac button_cases b raw :=
  destruct b as [pressed long double start previous last changed];
  destruct raw, pressed, last;
  unfold_cmd;
  rewrite ?ULongFacts.sub_diag;
  change (DEBOUNCE_DELAY <? 0) with false;
  unfold_cmd;
  split_ifs.

Section ProcessButtonFields.

Variables (raw : bool) (now : Z) (b : ButtonState).

Local Abbreviation b' := (exec (processButton raw now) b).

Lemma processButton_lastState : lastState b' = raw.
Proof. button_cases b raw; reflexivity. Qed.

Lemma processButton_lastDebounceTime :
  lastDebounceTime b' =
  if Bool.eqb raw (lastState b) then lastDebounceTime b else now.
Proof. button_cases b raw; reflexivity. Qed.

Lemma processButton_isPressed :
  isPressed b' = if steady raw now b then raw else isPressed b.
Proof. button_cases b raw; reflexivity. Qed.

Lemma processButton_wasDoubleClicked :
  wasDoubleClicked b' =
  if steady raw now b && raw && negb (isPressed b)
  then ULong.sub now (lastPressTime b) <? DOUBLE_CLICK_TIME
  else wasDoubleClicked b.
Proof. button_cases b raw; reflexivity. Qed.

Lemma processButton_wasLongPressed :
  wasLongPressed b' =
  if steady raw now b && negb raw && isPressed b
  then LONG_PRESS_TIME <=? ULong.sub now (pressedTime b)
  else wasLongPressed b.
Proof. button_cases b raw; reflexivity. Qed.

Lemma processButton_pressedTime :
  pressedTime b' =
  if steady raw now b && raw && negb (isPressed b)
  then now else pressedTime b.
Proof. button_cases b raw; reflexivity. Qed.

Lemma processButton_lastPressTime :
  lastPressTime b' =
  if steady raw now b && raw && negb (isPressed b)
  then now else lastPressTime b.
Proof. button_cases b raw; reflexivity. Qed.

(** The debounce test of the code reads the timestamp after the edge
    check has possibly overwritten it; [steady] reads the one before. *)
Lemma steady_after_edge_check :
  (DEBOUNCE_DELAY <? ULong.sub now (lastDebounceTime b')) = steady raw now b.
Proof.
  rewrite processButton_lastDebounceTime. unfold steady.
  destruct (Bool.eqb raw (lastState b)); [reflexivity |].
  now rewrite ULongFacts.sub_diag.
Qed.

Lemma accepts_press_iff :
  accepts_press raw now b <->
  isPressed b = false /\ raw = true /\ steady raw now b = true.
Proof.
  unfold accepts_press. rewrite processButton_isPressed.
  destruct (steady raw now b), raw, (isPressed b); intuition congruence.
Qed.

Lemma accepts_release_iff :
  accepts_release raw now b <->
  isPressed b = true /\ raw = false /\ steady raw now b = true.
Proof.
  unfold accepts_release. rewrite processButton_isPressed.
  destruct (steady raw now b), raw, (isPressed b); intuition congruence.
Qed.

End ProcessButtonFields.

(** ** The queries in closed form *)

Lemma wasButtonClicked_unfold (b : ButtonState) :
  wasButtonClicked b =
  if negb (isPressed b) && lastState b && negb (wasLongPressed b)
  then (true, set_lastState false b)
  else (false, b).
Proof. unfold_cmd. split_ifs; reflexivity. Qed.

Lemma wasButtonLongPressed_unfold (b : ButtonState) :
  wasButtonLongPressed b =
  if wasLongPressed b then (true, set_wasLongPressed false b) else (false, b).
Proof. unfold_cmd. split_ifs; reflexivity. Qed.

Lemma wasButtonDoubleClicked_unfold (b : ButtonState) :
  wasButtonDoubleClicked b =
  if wasDoubleClicked b
  then (true, set_wasDoubleClicked false b) else (false, b).
Proof. unfold_cmd. split_ifs; reflexivity. Qed.

Lemma wasButtonClicked_needs_lastState (b : ButtonState) :
  lastState b = false -> wasButtonClicked b = (false, b).
Proof.
  intros H. rewrite wasButtonClicked_unfold, H.
  now rewrite andb_false_r.
Qed.

(** Reading the long-press flag leaves [lastState] alone. *)
Lemma wasButtonLongPressed_lastState (b : ButtonState) :
  lastState (exec wasButtonLongPressed b) = lastState b.
Proof.
  unfold exec. rewrite wasButtonLongPressed_unfold.
  now destruct (wasLongPressed b).
Qed.

(** After any sample whose raw level is released, the click query finds
    [lastState] already overwritten with [false]. *)
Lemma no_click_after_released_sample (now : Z) (b : ButtonState) :
  wasButtonClicked (exec (processButton false now) b) =
  (false, exec (processButton false now) b).
Proof.
  apply wasButtonClicked_needs_lastState, processButton_lastState.
Qed.

(** ** Clicks *)

(** C1 (the code departs from the claim): the claim says that the first
    [wasButtonClicked] call after an accepted release with a short hold
    returns true.  In the code every accepted release has raw level
    false, [processButton] ends by storing that level in [lastState], and
    [wasButtonClicked] requires [lastState] to be true: the first call
    after an accepted release returns false and changes nothing. *)
Theorem release_reports_no_click (raw : bool) (now : Z) (b : ButtonState) :
  accepts_release raw now b ->
  wasButtonClicked (exec (processButton raw now) b) =
  (false, exec (processButton raw now) b).
Proof.
  intros Hrel. apply accepts_release_iff in Hrel.
  destruct Hrel as (_ & -> & _).
  apply no_click_after_released_sample.
Qed.

(** The release of a 200 ms hold, accepted at 300 ms. *)
Lemma release_reports_no_click_at_short_press :
  accepts_release false 300 (run short_press initial) /\
  ULong.sub 300 (pressedTime (run short_press initial)) = 200 /\
  wasButtonClicked (exec (processButton false 300) (run short_press initial)) =
  (false, exec (processButton false 300) (run short_press initial)).
Proof.
  split; [split; reflexivity |].
  split; [reflexivity |].
  apply (release_reports_no_click false 300 (run short_press initial)).
  split; reflexivity.
Defined.

(** C4 (the code departs from the claim): the claim says every accepted
    release fires exactly one of click and long press.  In the code the
    long-press query after an accepted release answers whether the hold
    lasted at least [LONG_PRESS_TIME], and the click query answers false
    whatever the hold was, before or after the long-press flag is read:
    a release below the threshold fires neither event. *)
Theorem release_click_and_long_press (raw : bool) (now : Z) (b : ButtonState) :
  accepts_release raw now b ->
  let released := exec (processButton raw now) b in
  let hold := ULong.sub now (pressedTime b) in
  eval wasButtonLongPressed released = (LONG_PRESS_TIME <=? hold) /\
  eval wasButtonClicked released = false /\
  eval wasButtonClicked (exec wasButtonLongPressed released) = false.
Proof.
  intros Hrel released hold. subst released hold.
  apply accepts_release_iff in Hrel.
  destruct Hrel as (Hp & -> & Hs).
  repeat split.
  - unfold eval. rewrite wasButtonLongPressed_unfold.
    rewrite processButton_wasLongPressed, Hs, Hp. simpl.
    now destruct (LONG_PRESS_TIME <=? _).
  - unfold eval. now rewrite no_click_after_released_sample.
  - unfold eval. rewrite wasButtonClicked_needs_lastState; [reflexivity |].
    rewrite wasButtonLongPressed_lastState. apply processButton_lastState.
Qed.

(** A 200 ms hold fires neither event; a 1200 ms hold fires the long
    press only. *)
Lemma release_click_and_long_press_at_both_holds :
  (accepts_release false 300 (run short_press initial) /\
   ULong.sub 300 (pressedTime (run short_press initial)) = 200 /\
   eval wasButtonLongPressed
        (exec (processButton false 300) (run short_press initial)) = false /\
   eval wasButtonClicked
        (exec (processButton false 300) (run short_press initial)) = false) /\
  (accepts_release false 1300 (run long_press initial) /\
   ULong.sub 1300 (pressedTime (run long_press initial)) = 1200 /\
   eval wasButtonLongPressed
        (exec (processButton false 1300) (run long_press initial)) = true /\
   eval wasButtonClicked
        (exec (processButton false 1300) (run long_press initial)) = false).
Proof.
  assert (Hs : accepts_release false 300 (run short_press initial))
    by (split; reflexivity).
  assert (Hl : accepts_release false 1300 (run long_press initial))
    by (split; reflexivity).
  pose proof (release_click_and_long_press false 300 _ Hs) as (Hs1 & Hs2 & _).
  pose proof (release_click_and_long_press false 1300 _ Hl) as (Hl1 & Hl2 & _).
  split.
  - split; [exact Hs |]. split; [reflexivity |]. split; [exact Hs1 | exact Hs2].
  - split; [exact Hl |]. split; [reflexivity |]. split; [exact Hl1 | exact Hl2].
Defined.

(** ** The double-click and long-press flags *)

(** The press branch of [processButton] runs exactly when the sample
    accepts a press, and the release branch exactly when it accepts a
    release. *)
Lemma press_branch_taken (raw : bool) (now : Z) (b : ButtonState) :
  steady raw now b && raw && negb (isPressed b) = true <->
  accepts_press raw now b.
Proof.
  rewrite accepts_press_iff.
  destruct (steady raw now b), raw, (isPressed b); simpl; intuition congruence.
Qed.

Lemma release_branch_taken (raw : bool) (now : Z) (b : ButtonState) :
  steady raw now b && negb raw && isPressed b = true <->
  accepts_release raw now b.
Proof.
  rewrite accepts_release_iff.
  destruct (steady raw now b), raw, (isPressed b); simpl; intuition congruence.
Qed.

(** Outside those branches the flags are not written. *)
Lemma wasDoubleClicked_kept_without_press
  (raw : bool) (now : Z) (b : ButtonState) :
  ~ accepts_press raw now b ->
  wasDoubleClicked (exec (processButton raw now) b) = wasDoubleClicked b.
Proof.
  intros Hno. rewrite processButton_wasDoubleClicked.
  destruct (steady raw now b && raw && negb (isPressed b)) eqn:E;
    [| reflexivity].
  apply press_branch_taken in E. contradiction.
Qed.

Lemma wasLongPressed_kept_without_release
  (raw : bool) (now : Z) (b : ButtonState) :
  ~ accepts_release raw now b ->
  wasLongPressed (exec (processButton raw now) b) = wasLongPressed b.
Proof.
  intros Hno. rewrite processButton_wasLongPressed.
  destruct (steady raw now b && negb raw && isPressed b) eqn:E;
    [| reflexivity].
  apply release_branch_taken in E. contradiction.
Qed.

(** C2, counterexample: the flag set by the press accepted at 100 ms is
    still unread when the press at 1100 ms is accepted; that press lies
    outside the window and the sample stores false, where the OR with
    the previous value would have kept true. *)
Lemma late_press_clears_double_click_flag :
  accepts_press true 1100 (run two_spaced_presses initial) /\
  wasDoubleClicked (run two_spaced_presses initial) = true /\
  (ULong.sub 1100 (lastPressTime (run two_spaced_presses initial))
     <? DOUBLE_CLICK_TIME) = false /\
  wasDoubleClicked (exec (processButton true 1100)
                         (run two_spaced_presses initial)) = false /\
  wasDoubleClicked (exec (processButton true 1100)
                         (run two_spaced_presses initial)) <>
  wasDoubleClicked (run two_spaced_presses initial)
  || (ULong.sub 1100 (lastPressTime (run two_spaced_presses initial))
        <? DOUBLE_CLICK_TIME).
Proof.
  repeat split; try reflexivity.
  vm_compute. discriminate.
Qed.

(** C2 (amended): a sample that accepts a press stores the window test
    [now - lastPressTime < DOUBLE_CLICK_TIME] in the double-click flag,
    whatever the flag held, so a flag that was true is cleared by a press
    outside the window; a sample that accepts no press leaves the flag as
    it was. *)
Theorem press_overwrites_double_click_flag
  (raw : bool) (now : Z) (b : ButtonState) :
  (accepts_press raw now b ->
   wasDoubleClicked (exec (processButton raw now) b) =
   (ULong.sub now (lastPressTime b) <? DOUBLE_CLICK_TIME)) /\
  (~ accepts_press raw now b ->
   wasDoubleClicked (exec (processButton raw now) b) = wasDoubleClicked b).
Proof.
  split; [| apply wasDoubleClicked_kept_without_press].
  intros Hpress. apply press_branch_taken in Hpress.
  now rewrite processButton_wasDoubleClicked, Hpress.
Qed.

Lemma press_overwrites_double_click_flag_at_late_press :
  accepts_press true 1100 (run two_spaced_presses initial) /\
  wasDoubleClicked (exec (processButton true 1100)
                         (run two_spaced_presses initial)) =
  (ULong.sub 1100 (lastPressTime (run two_spaced_presses initial))
     <? DOUBLE_CLICK_TIME) /\
  ~ accepts_press true 1000 (run short_press initial) /\
  wasDoubleClicked (exec (processButton true 1000) (run short_press initial)) =
  wasDoubleClicked (run short_press initial).
Proof.
  assert (H : accepts_press true 1100 (run two_spaced_presses initial))
    by (split; reflexivity).
  assert (N : ~ accepts_press true 1000 (run short_press initial))
    by (intros [F G]; vm_compute in F, G; congruence).
  split; [exact H |].
  split; [exact (proj1 (press_overwrites_double_click_flag true 1100 _) H) |].
  split; [exact N |].
  exact (proj2 (press_overwrites_double_click_flag true 1000 _) N).
Defined.

(** C3, counterexample: the flag set by the release of the 1200 ms hold
    is still unread when the release of the 200 ms hold is accepted at
    2300 ms; the sample stores false, where the OR with the previous
    value would have kept true. *)
Lemma short_release_clears_long_press_flag :
  accepts_release false 2300 (run long_then_short initial) /\
  wasLongPressed (run long_then_short initial) = true /\
  (LONG_PRESS_TIME <=?
     ULong.sub 2300 (pressedTime (run long_then_short initial))) = false /\
  wasLongPressed (exec (processButton false 2300)
                       (run long_then_short initial)) = false /\
  wasLongPressed (exec (processButton false 2300)
                       (run long_then_short initial)) <>
  wasLongPressed (run long_then_short initial)
  || (LONG_PRESS_TIME <=?
        ULong.sub 2300 (pressedTime (run long_then_short initial))).
Proof.
  repeat split; try reflexivity.
  vm_compute. discriminate.
Qed.

(** C3 (amended): a sample that accepts a release stores the threshold
    test [now - pressedTime >= LONG_PRESS_TIME] in the long-press flag,
    whatever the flag held, so a flag that was true is cleared by the
    release of a short hold; a sample that accepts no release leaves the
    flag as it was. *)
Theorem release_overwrites_long_press_flag
  (raw : bool) (now : Z) (b : ButtonState) :
  (accepts_release raw now b ->
   wasLongPressed (exec (processButton raw now) b) =
   (LONG_PRESS_TIME <=? ULong.sub now (pressedTime b))) /\
  (~ accepts_release raw now b ->
   wasLongPressed (exec (processButton raw now) b) = wasLongPressed b).
Proof.
  split; [| apply wasLongPressed_kept_without_release].
  intros Hrel. apply release_branch_taken in Hrel.
  now rewrite processButton_wasLongPressed, Hrel.
Qed.

Lemma release_overwrites_long_press_flag_at_short_release :
  accepts_release false 2300 (run long_then_short initial) /\
  wasLongPressed (exec (processButton false 2300)
                       (run long_then_short initial)) =
  (LONG_PRESS_TIME <=?
     ULong.sub 2300 (pressedTime (run long_then_short initial))) /\
  ~ accepts_release false 1200 (run long_press initial) /\
  wasLongPressed (exec (processButton false 1200) (run long_press initial)) =
  wasLongPressed (run long_press initial).
Proof.
  assert (H : accepts_release false 2300 (run long_then_short initial))
    by (split; reflexivity).
  assert (N : ~ accepts_release false 1200 (run long_press initial))
    by (intros [F G]; vm_compute in F, G; congruence).
  split; [exact H |].
  split; [exact (proj1 (release_overwrites_long_press_flag false 2300 _) H) |].
  split; [exact N |].
  exact (proj2 (release_overwrites_long_press_flag false 1200 _) N).
Defined.

(** ** Debouncing *)

(** While a changed level waits to be accepted nothing moves: over
    calls that see the same level at most [DEBOUNCE_DELAY] after the
    change recorded at [t0], and queries that leave [lastState] alone,
    the record keeps the last raw level, the time of the change and the
    debounced state. *)
Lemma waiting_keeps_state (raw : bool) (t0 : Z) (cs : list Call) :
  forall b,
    lastState b = raw ->
    lastDebounceTime b = t0 ->
    Forall (waits_for raw t0) cs ->
    lastState (run cs b) = raw /\
    lastDebounceTime (run cs b) = t0 /\
    isPressed (run cs b) = isPressed b.
Proof.
  induction cs as [| c cs IH]; intros b Hl Ht Hcs; [now repeat split |].
  inversion Hcs as [| ? ? Hc Hrest]; subst. simpl.
  assert (Hstep : lastState (call c b) = lastState b /\
                  lastDebounceTime (call c b) = lastDebounceTime b /\
                  isPressed (call c b) = isPressed b).
  { destruct c as [r t | | |]; simpl in Hc |- *.
    - destruct Hc as [-> Hearly].
      rewrite processButton_lastState, processButton_lastDebounceTime,
        processButton_isPressed.
      unfold steady. rewrite Bool.eqb_reflx.
      apply Z.ltb_ge in Hearly. rewrite Hearly. now repeat split.
    - unfold exec.
      now rewrite wasButtonClicked_needs_lastState by congruence.
    - unfold exec. rewrite wasButtonLongPressed_unfold.
      now destruct (wasLongPressed b).
    - unfold exec. rewrite wasButtonDoubleClicked_unfold.
      now destruct (wasDoubleClicked b). }
  destruct Hstep as (S1 & S2 & S3).
  destruct (IH (call c b)) as (I1 & I2 & I3); try congruence; try assumption.
  repeat split; congruence.
Qed.

Lemma waits_for_firstn (raw : bool) (t0 : Z) (n : nat) (cs : list Call) :
  Forall (waits_for raw t0) cs -> Forall (waits_for raw t0) (firstn n cs).
Proof.
  intros H. revert n. induction H as [| c cs Hc _ IH]; intros [| n]; simpl;
    constructor; auto.
Qed.

(** C5: [processButton] copies the raw level into [isPressed] exactly
    when the time since the last recorded change of the raw signal is
    strictly greater than [DEBOUNCE_DELAY], where a call that sees a
    level different from the previous sample records its own clock
    reading as the time of the change.  So the call that observes a
    change never moves [isPressed]; a level that equals the previous
    sample and has lasted more than 50 ms is taken over by this very
    call; and a call at most 50 ms after the last change leaves
    [isPressed] as it was.  Over several calls: once a change was
    observed at [now], [isPressed] stays as it was through every sample
    of the same level up to 50 ms later, and the first sample more than
    50 ms later takes the level over. *)
Theorem debounce_strict_threshold (raw : bool) (now : Z) (b : ButtonState) :
  let b' := exec (processButton raw now) b in
  lastDebounceTime b' =
  (if Bool.eqb raw (lastState b) then lastDebounceTime b else now) /\
  isPressed b' =
  (if DEBOUNCE_DELAY <? ULong.sub now (lastDebounceTime b')
   then raw else isPressed b) /\
  (isPressed b' <> isPressed b ->
   DEBOUNCE_DELAY < ULong.sub now (lastDebounceTime b') /\
   raw = lastState b /\
   DEBOUNCE_DELAY < ULong.sub now (lastDebounceTime b)) /\
  (raw = lastState b ->
   DEBOUNCE_DELAY < ULong.sub now (lastDebounceTime b) ->
   isPressed b' = raw) /\
  (raw <> lastState b ->
   isPressed b' = isPressed b /\ lastDebounceTime b' = now) /\
  (ULong.sub now (lastDebounceTime b') <= DEBOUNCE_DELAY ->
   isPressed b' = isPressed b) /\
  (ULong.sub now (lastDebounceTime b) <= DEBOUNCE_DELAY ->
   isPressed b' = isPressed b) /\
  (raw <> lastState b ->
   forall cs t,
     Forall (waits_for raw now) cs ->
     DEBOUNCE_DELAY < ULong.sub t now ->
     (forall n, isPressed (run (firstn n cs) b') = isPressed b) /\
     isPressed (exec (processButton raw t) (run cs b')) = raw).
Proof.
  cbv zeta.
  assert (Hedge : raw <> lastState b ->
                  isPressed (exec (processButton raw now) b) = isPressed b /\
                  lastDebounceTime (exec (processButton raw now) b) = now).
  { intros Hne. apply Bool.eqb_false_iff in Hne.
    rewrite processButton_isPressed, processButton_lastDebounceTime.
    unfold steady. now rewrite Hne. }
  split; [apply processButton_lastDebounceTime |].
  rewrite processButton_isPressed, processButton_lastDebounceTime.
  unfold steady.
  destruct (Bool.eqb raw (lastState b)) eqn:Eraw; simpl.
  - apply Bool.eqb_prop in Eraw.
    destruct (DEBOUNCE_DELAY <? ULong.sub now (lastDebounceTime b)) eqn:Elt.
    + apply Z.ltb_lt in Elt.
      repeat split; intros; try lia; try reflexivity; try assumption;
        contradiction.
    + apply Z.ltb_ge in Elt.
      repeat split; intros; try lia; try reflexivity; try congruence;
        contradiction.
  - apply Bool.eqb_false_iff in Eraw.
    rewrite ULongFacts.sub_diag.
    change (DEBOUNCE_DELAY <? 0) with false.
    split; [reflexivity |].
    split; [intros; congruence |].
    split; [intros; congruence |].
    split; [intros; now split |].
    split; [reflexivity |].
    split; [reflexivity |].
    intros _ cs t Hcs Hlate.
    destruct (Hedge Eraw) as [Hp Ht].
    pose proof (processButton_lastState raw now b) as Hl.
    split.
    + intros n.
      destruct (waiting_keeps_state raw now (firstn n cs) _ Hl Ht
                  (waits_for_firstn raw now n cs Hcs)) as (_ & _ & H3).
      congruence.
    + destruct (waiting_keeps_state raw now cs _ Hl Ht Hcs) as (H1 & H2 & _).
      rewrite processButton_isPressed. unfold steady.
      rewrite H1, H2, Bool.eqb_reflx.
      apply Z.ltb_lt in Hlate. now rewrite Hlate.
Qed.

(** The raw level went up at 0 ms: a sample at 50 ms does not accept the
    press, a sample at 51 ms does, also after earlier samples and a
    flag query at which nothing moved. *)
Lemma debounce_strict_threshold_at_50_and_51 :
  (ULong.sub 50 (lastDebounceTime (run [Sample true 0] initial))
     <= DEBOUNCE_DELAY /\
   isPressed (exec (processButton true 50) (run [Sample true 0] initial)) =
   isPressed (run [Sample true 0] initial)) /\
  (true = lastState (run [Sample true 0] initial) /\
   DEBOUNCE_DELAY <
     ULong.sub 51 (lastDebounceTime (run [Sample true 0] initial)) /\
   isPressed (exec (processButton true 51) (run [Sample true 0] initial)) =
   true) /\
  (true <> lastState initial /\
   Forall (waits_for true 0) waiting_calls /\
   DEBOUNCE_DELAY < ULong.sub 51 0 /\
   (forall n,
       isPressed (run (firstn n waiting_calls)
                      (exec (processButton true 0) initial)) = false) /\
   isPressed (exec (processButton true 51)
                   (run waiting_calls (exec (processButton true 0) initial)))
   = true).
Proof.
  assert (Hle : ULong.sub 50 (lastDebounceTime (run [Sample true 0] initial))
                <= DEBOUNCE_DELAY) by (vm_compute; discriminate).
  assert (Hlt : DEBOUNCE_DELAY <
                ULong.sub 51 (lastDebounceTime (run [Sample true 0] initial)))
    by reflexivity.
  assert (Hne : true <> lastState initial) by discriminate.
  assert (Hw : Forall (waits_for true 0) waiting_calls).
  { unfold waiting_calls.
    repeat constructor; vm_compute; discriminate. }
  assert (Hlate : DEBOUNCE_DELAY < ULong.sub 51 0) by reflexivity.
  pose proof (debounce_strict_threshold true 50 (run [Sample true 0] initial))
    as (_ & _ & _ & _ & _ & _ & H50 & _).
  pose proof (debounce_strict_threshold true 51 (run [Sample true 0] initial))
    as (_ & _ & _ & H51 & _).
  pose proof (debounce_strict_threshold true 0 initial)
    as (_ & _ & _ & _ & _ & _ & _ & Hrun).
  destruct (Hrun Hne waiting_calls 51 Hw Hlate) as [Hwait Htake].
  split; [split; [exact Hle | exact (H50 Hle)] |].
  split; [split; [reflexivity | split; [exact Hlt | exact (H51 eq_refl Hlt)]] |].
  split; [exact Hne |]. split; [exact Hw |]. split; [exact Hlate |].
  split; [exact Hwait | exact Htake].
Defined.

Lemma not_steady_while_bouncing (raw : bool) (now : Z) (b : ButtonState) :
  raw <> lastState b \/ ULong.sub now (lastDebounceTime b) <= DEBOUNCE_DELAY ->
  steady raw now b = false.
Proof.
  unfold steady. intros [Hedge | Hearly].
  - apply Bool.eqb_false_iff in Hedge. now rewrite Hedge.
  - apply Z.ltb_ge in Hearly. rewrite Hearly. apply andb_false_r.
Qed.

Lemma processButton_not_steady (raw : bool) (now : Z) (b : ButtonState) :
  steady raw now b = false ->
  same_gestures b (exec (processButton raw now) b).
Proof.
  intros Hs. unfold same_gestures.
  rewrite processButton_isPressed, processButton_wasLongPressed,
    processButton_wasDoubleClicked, processButton_pressedTime,
    processButton_lastPressTime, Hs.
  simpl. repeat split.
Qed.

Lemma released_samples_keep_released (later : list Z) :
  forall b,
    isPressed b = false ->
    let b' := run (samples (map (fun t => (false, t)) later)) b in
    isPressed b' = false /\
    wasLongPressed b' = wasLongPressed b /\
    wasDoubleClicked b' = wasDoubleClicked b.
Proof.
  induction later as [| t later IH]; intros b Hp; simpl.
  - repeat split; assumption.
  - assert (Hp' : isPressed (exec (processButton false t) b) = false).
    { rewrite processButton_isPressed. now destruct (steady false t b). }
    destruct (IH _ Hp') as (I1 & I2 & I3).
    rewrite processButton_wasLongPressed in I2.
    rewrite processButton_wasDoubleClicked in I3.
    rewrite Hp in I2. rewrite !andb_false_r in I2, I3.
    repeat split; assumption.
Qed.

(** In the 30 ms bounce no transition is ever accepted, however long
    sampling goes on with the raw level down. *)
Lemma bounce_30ms_suppressed (later : list Z) (n : nat) :
  let b := run (samples (firstn n (bounce_30ms later))) initial in
  isPressed b = false /\
  wasLongPressed b = false /\
  wasDoubleClicked b = false.
Proof.
  cbv zeta.
  destruct n as [| [| n]]; [repeat split | repeat split |].
  change (firstn (S (S n)) (bounce_30ms later))
    with ((true, 0) :: (false, 30) ::
          firstn n (map (fun t => (false, t)) later)).
  rewrite firstn_map.
  change (run (samples ((true, 0) :: (false, 30) ::
                          map (fun t => (false, t)) (firstn n later))) initial)
    with (run (samples (map (fun t => (false, t)) (firstn n later)))
              (run [Sample true 0; Sample false 30] initial)).
  apply (released_samples_keep_released (firstn n later)
           (run [Sample true 0; Sample false 30] initial)).
  reflexivity.
Qed.

(** The click query is another matter: called after the sample that saw
    the raw level go up, it returns true although the bounce is
    suppressed and no release was accepted. *)
Lemma click_reported_during_bounce :
  isPressed (run [Sample true 0] initial) = false /\
  eval wasButtonClicked (run [Sample true 0] initial) = true.
Proof. split; reflexivity. Qed.

(** C6, counterexample: the raw level changes at 0, 30 and 60 ms, each
    change less than [DEBOUNCE_DELAY] after the one before, and is then
    sampled again at 200 ms.  That sample accepts the press: [isPressed]
    changes and the double-click flag is set. *)
Lemma bounce_then_hold_accepts_press :
  toggles bounce_then_hold initial = [0; 30; 60] /\
  gaps_below DEBOUNCE_DELAY (toggles bounce_then_hold initial) /\
  isPressed initial = false /\
  wasDoubleClicked initial = false /\
  isPressed (run (samples bounce_then_hold) initial) = true /\
  wasDoubleClicked (run (samples bounce_then_hold) initial) = true.
Proof.
  split; [reflexivity |].
  split; [repeat split |].
  repeat split.
Qed.

Lemma settled_sample (raw : bool) (now : Z) (b : ButtonState) :
  raw <> lastState b \/
  ULong.sub now (lastDebounceTime b) <= DEBOUNCE_DELAY \/
  raw = isPressed b ->
  same_gestures b (exec (processButton raw now) b).
Proof.
  intros [Hedge | [Hearly | Hsame]].
  - apply processButton_not_steady, not_steady_while_bouncing. now left.
  - apply processButton_not_steady, not_steady_while_bouncing. now right.
  - unfold same_gestures.
    rewrite processButton_isPressed, processButton_wasLongPressed,
      processButton_wasDoubleClicked, processButton_pressedTime,
      processButton_lastPressTime, Hsame.
    destruct (steady (isPressed b) now b), (isPressed b); simpl;
      repeat split.
Qed.

(** Suppression: as long as no sample finds a level that has rested
    for more than [DEBOUNCE_DELAY] on another value than the debounced
    state, sampling changes neither that state nor any flag. *)
Lemma settles_suppressed (ss : list (bool * Z)) :
  forall b, settles (isPressed b) ss b -> same_gestures b (run (samples ss) b).
Proof.
  induction ss as [| [raw now] ss IH]; intros b Hs.
  - unfold same_gestures. simpl. repeat split.
  - destruct Hs as [Hhere Hrest]. simpl.
    apply settled_sample in Hhere.
    destruct Hhere as (H1 & H2 & H3 & H4 & H5).
    rewrite <- H1 in Hrest. specialize (IH _ Hrest).
    destruct IH as (I1 & I2 & I3 & I4 & I5).
    unfold same_gestures. repeat split; congruence.
Qed.

Lemma settles_firstn (stable : bool) (n : nat) (ss : list (bool * Z)) :
  forall b, settles stable ss b -> settles stable (firstn n ss) b.
Proof.
  revert ss. induction n as [| n IH]; intros [| [raw now] ss] b Hs;
    simpl; auto.
  destruct Hs as [Hhere Hrest]. split; [exact Hhere | now apply IH].
Qed.

(** C6 (amended): over a run of samples whose recorded changes of the
    raw level each come less than [DEBOUNCE_DELAY] after the one before,
    and in which no sample finds a level that has rested for more than
    [DEBOUNCE_DELAY] on another value than [isPressed] had at the start,
    [isPressed] and both flags are at every point what they were at the
    start.  In the 30 ms bounce (up at 0 ms, down at 30 ms, then sampled
    any number of times with the level down) no transition is accepted:
    [isPressed] is false and both flags are clear at every point. *)
Theorem debounce_suppression (ss : list (bool * Z)) (b : ButtonState) :
  (gaps_below DEBOUNCE_DELAY (toggles ss b) ->
   settles (isPressed b) ss b ->
   forall n,
     let b' := run (samples (firstn n ss)) b in
     isPressed b' = isPressed b /\
     wasLongPressed b' = wasLongPressed b /\
     wasDoubleClicked b' = wasDoubleClicked b) /\
  (forall later n,
      let b' := run (samples (firstn n (bounce_30ms later))) initial in
      isPressed b' = false /\
      wasLongPressed b' = false /\
      wasDoubleClicked b' = false).
Proof.
  split.
  - intros _ Hs n. cbv zeta.
    destruct (settles_suppressed (firstn n ss) b (settles_firstn _ n ss b Hs))
      as (H1 & H2 & H3 & _).
    now repeat split.
  - intros later n. apply bounce_30ms_suppressed.
Qed.

(** The level changes at 0 and 20 ms and then rests low, where it was
    at the start; it is sampled again at 200 and 300 ms. *)
Lemma debounce_suppression_at_bounce_then_rest :
  toggles bounce_then_rest initial = [0; 20] /\
  gaps_below DEBOUNCE_DELAY (toggles bounce_then_rest initial) /\
  settles (isPressed initial) bounce_then_rest initial /\
  forall n,
    isPressed (run (samples (firstn n bounce_then_rest)) initial) = false /\
    wasLongPressed (run (samples (firstn n bounce_then_rest)) initial)
    = false /\
    wasDoubleClicked (run (samples (firstn n bounce_then_rest)) initial)
    = false.
Proof.
  assert (Hg : gaps_below DEBOUNCE_DELAY (toggles bounce_then_rest initial))
    by (repeat split).
  assert (Hs : settles (isPressed initial) bounce_then_rest initial).
  { unfold bounce_then_rest, settles.
    repeat split;
      solve [ left; vm_compute; discriminate
            | right; right; reflexivity ]. }
  split; [reflexivity |]. split; [exact Hg |]. split; [exact Hs |].
  exact (proj1 (debounce_suppression bounce_then_rest initial) Hg Hs).
Defined.

(** ** Frames of the queries *)

Lemma wasButtonLongPressed_frame (b : ButtonState) :
  same_but_wasLongPressed b (exec wasButtonLongPressed b).
Proof.
  unfold exec. rewrite wasButtonLongPressed_unfold.
  destruct (wasLongPressed b); repeat split.
Qed.

Lemma wasButtonDoubleClicked_frame (b : ButtonState) :
  same_but_wasDoubleClicked b (exec wasButtonDoubleClicked b).
Proof.
  unfold exec. rewrite wasButtonDoubleClicked_unfold.
  destruct (wasDoubleClicked b); repeat split.
Qed.

Lemma wasButtonClicked_frame (b : ButtonState) :
  same_but_lastState b (exec wasButtonClicked b).
Proof.
  unfold exec. rewrite wasButtonClicked_unfold.
  destruct (negb (isPressed b) && lastState b && negb (wasLongPressed b));
    repeat split.
Qed.

(** C10: [wasButtonLongPressed] changes no field but [wasLongPressed],
    [wasButtonDoubleClicked] changes no field but [wasDoubleClicked], and
    [isButtonPressed] and [getButtonPressDuration] change no field. *)
Theorem flag_reads_frame (b : ButtonState) (now : Z) :
  (let b' := exec wasButtonLongPressed b in
   isPressed b' = isPressed b /\
   wasDoubleClicked b' = wasDoubleClicked b /\
   pressedTime b' = pressedTime b /\
   lastPressTime b' = lastPressTime b /\
   lastState b' = lastState b /\
   lastDebounceTime b' = lastDebounceTime b) /\
  (let b' := exec wasButtonDoubleClicked b in
   isPressed b' = isPressed b /\
   wasLongPressed b' = wasLongPressed b /\
   pressedTime b' = pressedTime b /\
   lastPressTime b' = lastPressTime b /\
   lastState b' = lastState b /\
   lastDebounceTime b' = lastDebounceTime b) /\
  exec isButtonPressed b = b /\
  exec (getButtonPressDuration now) b = b.
Proof.
  split; [exact (wasButtonLongPressed_frame b) |].
  split; [exact (wasButtonDoubleClicked_frame b) |].
  split; [reflexivity |].
  unfold_cmd. now destruct b as [[] ? ? ? ? ? ?].
Qed.

(** ** Reading a flag twice *)

Lemma long_press_flag_clear_without_long_hold (cs : list Call) :
  forall b,
    wasLongPressed b = false ->
    no_long_press_accepted cs b ->
    wasLongPressed (run cs b) = false.
Proof.
  induction cs as [| c cs IH]; intros b Hflag Hno; [exact Hflag |].
  destruct Hno as [Hc Hrest]. simpl. apply IH; [| exact Hrest].
  destruct c as [raw now | | |]; simpl.
  - rewrite processButton_wasLongPressed.
    destruct (steady raw now b && negb raw && isPressed b) eqn:E;
      [| exact Hflag].
    apply release_branch_taken in E.
    apply Z.leb_gt. apply Z.nle_gt. intros Hlong. apply Hc. now split.
  - now rewrite (proj1 (proj2 (wasButtonClicked_frame b))).
  - unfold exec. rewrite wasButtonLongPressed_unfold. now rewrite Hflag.
  - now rewrite (proj1 (proj2 (wasButtonDoubleClicked_frame b))).
Qed.

Lemma double_click_flag_clear_without_close_press (cs : list Call) :
  forall b,
    wasDoubleClicked b = false ->
    no_double_click_accepted cs b ->
    wasDoubleClicked (run cs b) = false.
Proof.
  induction cs as [| c cs IH]; intros b Hflag Hno; [exact Hflag |].
  destruct Hno as [Hc Hrest]. simpl. apply IH; [| exact Hrest].
  destruct c as [raw now | | |]; simpl.
  - rewrite processButton_wasDoubleClicked.
    destruct (steady raw now b && raw && negb (isPressed b)) eqn:E;
      [| exact Hflag].
    apply press_branch_taken in E.
    apply Z.ltb_ge. apply Z.nlt_ge. intros Hclose. apply Hc. now split.
  - now rewrite (proj1 (proj2 (proj2 (wasButtonClicked_frame b)))).
  - now rewrite (proj1 (proj2 (wasButtonLongPressed_frame b))).
  - unfold exec. rewrite wasButtonDoubleClicked_unfold. now rewrite Hflag.
Qed.

(** C7: when the long-press flag is set, [wasButtonLongPressed] returns
    true and the next call of it returns false, also when other calls
    come in between, as long as no sample among them accepts the release
    of a hold of [LONG_PRESS_TIME] or more; releases of shorter holds
    may be accepted in between.  The same holds for
    [wasButtonDoubleClicked] and the double-click flag, as long as no
    sample in between accepts a press less than [DOUBLE_CLICK_TIME]
    after the previous one; later presses may be accepted. *)
Theorem flag_read_twice (b : ButtonState) (cs : list Call) :
  (wasLongPressed b = true ->
   eval wasButtonLongPressed b = true /\
   eval wasButtonLongPressed (exec wasButtonLongPressed b) = false /\
   (no_long_press_accepted cs (exec wasButtonLongPressed b) ->
    eval wasButtonLongPressed (run cs (exec wasButtonLongPressed b)) = false))
  /\
  (wasDoubleClicked b = true ->
   eval wasButtonDoubleClicked b = true /\
   eval wasButtonDoubleClicked (exec wasButtonDoubleClicked b) = false /\
   (no_double_click_accepted cs (exec wasButtonDoubleClicked b) ->
    eval wasButtonDoubleClicked (run cs (exec wasButtonDoubleClicked b))
    = false)).
Proof.
  split; intros Hflag.
  - assert (Hclear : wasLongPressed (exec wasButtonLongPressed b) = false).
    { unfold exec. rewrite wasButtonLongPressed_unfold. now rewrite Hflag. }
    split; [| split].
    + unfold eval. rewrite wasButtonLongPressed_unfold. now rewrite Hflag.
    + unfold eval. rewrite wasButtonLongPressed_unfold. now rewrite Hclear.
    + intros Hno. unfold eval. rewrite wasButtonLongPressed_unfold.
      now rewrite (long_press_flag_clear_without_long_hold cs _ Hclear Hno).
  - assert (Hclear : wasDoubleClicked (exec wasButtonDoubleClicked b) = false).
    { unfold exec. rewrite wasButtonDoubleClicked_unfold. now rewrite Hflag. }
    split; [| split].
    + unfold eval. rewrite wasButtonDoubleClicked_unfold. now rewrite Hflag.
    + unfold eval. rewrite wasButtonDoubleClicked_unfold. now rewrite Hclear.
    + intros Hno. unfold eval. rewrite wasButtonDoubleClicked_unfold.
      now rewrite (double_click_flag_clear_without_close_press cs _
                     Hclear Hno).
Qed.

(** After the release of a 1200 ms hold, with both flags set: between
    the two reads a press is accepted 1400 ms after the previous one
    and the release of its 200 ms hold is accepted. *)
Lemma flag_read_twice_after_long_press :
  (wasLongPressed long_press_released = true /\
   accepts_release false 1700
     (run [Sample true 1400; Sample true 1500; Sample false 1600]
          (exec wasButtonLongPressed long_press_released)) /\
   no_long_press_accepted short_press_between
     (exec wasButtonLongPressed long_press_released) /\
   eval wasButtonLongPressed long_press_released = true /\
   eval wasButtonLongPressed
        (exec wasButtonLongPressed long_press_released) = false /\
   eval wasButtonLongPressed
        (run short_press_between
             (exec wasButtonLongPressed long_press_released))
   = false) /\
  (wasDoubleClicked long_press_released = true /\
   accepts_press true 1500
     (run [Sample true 1400]
          (exec wasButtonDoubleClicked long_press_released)) /\
   no_double_click_accepted short_press_between
     (exec wasButtonDoubleClicked long_press_released) /\
   eval wasButtonDoubleClicked long_press_released = true /\
   eval wasButtonDoubleClicked
        (exec wasButtonDoubleClicked long_press_released) = false /\
   eval wasButtonDoubleClicked
        (run short_press_between
             (exec wasButtonDoubleClicked long_press_released))
   = false).
Proof.
  assert (Hl : wasLongPressed long_press_released = true) by reflexivity.
  assert (Hd : wasDoubleClicked long_press_released = true) by reflexivity.
  assert (Nr : no_long_press_accepted short_press_between
                 (exec wasButtonLongPressed long_press_released)).
  { repeat split; try exact I; intros [[F G] H];
      vm_compute in F, G, H; congruence. }
  assert (Np : no_double_click_accepted short_press_between
                 (exec wasButtonDoubleClicked long_press_released)).
  { repeat split; try exact I; intros [[F G] H];
      vm_compute in F, G, H; congruence. }
  destruct (flag_read_twice long_press_released short_press_between)
    as [HL HD].
  destruct (HL Hl) as (L1 & L2 & L3).
  destruct (HD Hd) as (D1 & D2 & D3).
  split.
  - refine (conj Hl (conj _ (conj Nr (conj L1 (conj L2 (L3 Nr)))))).
    split; reflexivity.
  - refine (conj Hd (conj _ (conj Np (conj D1 (conj D2 (D3 Np)))))).
    split; reflexivity.
Defined.

(** ** The click query during the debounce of a press *)

(** C8: with [isPressed] false, [lastState] true and the long-press flag
    clear, [wasButtonClicked] returns true and stores false in
    [lastState].  The next sample with the raw level still up then sees
    a level different from [lastState], records its own time as the time
    of the last change and so cannot accept the press, whereas without
    the query the same sample would have left [lastDebounceTime] as it
    was. *)
Theorem click_query_restarts_debounce (b : ButtonState) :
  isPressed b = false ->
  lastState b = true ->
  wasLongPressed b = false ->
  wasButtonClicked b = (true, set_lastState false b) /\
  forall now,
    lastDebounceTime (exec (processButton true now) (exec wasButtonClicked b))
    = now /\
    isPressed (exec (processButton true now) (exec wasButtonClicked b))
    = false /\
    lastDebounceTime (exec (processButton true now) b) = lastDebounceTime b.
Proof.
  intros Hp Hl Hf.
  assert (Hq : wasButtonClicked b = (true, set_lastState false b)).
  { rewrite wasButtonClicked_unfold, Hp, Hl, Hf. reflexivity. }
  split; [exact Hq |].
  intros now. unfold exec at 2 4. rewrite Hq. simpl snd.
  rewrite processButton_lastDebounceTime, processButton_isPressed,
    processButton_lastDebounceTime.
  unfold steady. rewrite Hl. simpl.
  repeat split. exact Hp.
Qed.

(** The raw level went up at 0 ms and is still up at 100 ms.  Sampled at
    100 ms the press is accepted; with a click query in between it is
    not, and the debounce starts again at 100 ms. *)
Lemma click_query_restarts_debounce_at_100 :
  wasButtonClicked (run [Sample true 0] initial) =
  (true, set_lastState false (run [Sample true 0] initial)) /\
  lastDebounceTime (run [Sample true 0; ReadClicked; Sample true 100] initial)
  = 100 /\
  isPressed (run [Sample true 0; ReadClicked; Sample true 100] initial)
  = false /\
  lastDebounceTime (run [Sample true 0; Sample true 100] initial) = 0 /\
  isPressed (run [Sample true 0; Sample true 100] initial) = true.
Proof.
  destruct (click_query_restarts_debounce (run [Sample true 0] initial)
              eq_refl eq_refl eq_refl) as [Hq Hnext].
  destruct (Hnext 100) as (H1 & H2 & H3).
  split; [exact Hq |].
  split; [exact H1 |].
  split; [exact H2 |].
  split; [exact H3 | reflexivity].
Defined.

(** ** The first press after initialisation *)

(** [initButtons] puts each of the three buttons in the state [initial]. *)
Lemma initButtons_initial :
  buttonA initButtons = initial /\
  buttonB initButtons = initial /\
  buttonC initButtons = initial.
Proof. repeat split. Qed.

Lemma before_first_press (cs : list Call) :
  forall b,
    isPressed b = false ->
    no_press_accepted cs b ->
    isPressed (run cs b) = false /\ lastPressTime (run cs b) = lastPressTime b.
Proof.
  induction cs as [| c cs IH]; intros b Hp Hno; [now split |].
  destruct Hno as [Hc Hrest]. simpl.
  assert (Hstep : isPressed (call c b) = false /\
                  lastPressTime (call c b) = lastPressTime b).
  { destruct c as [raw now | | |]; simpl.
    - assert (E : steady raw now b && raw && negb (isPressed b) = false).
      { destruct (steady raw now b && raw && negb (isPressed b)) eqn:E;
          [| reflexivity].
        apply press_branch_taken in E. contradiction. }
      rewrite processButton_lastPressTime, E. split; [| reflexivity].
      destruct (isPressed (exec (processButton raw now) b)) eqn:E';
        [| reflexivity].
      exfalso. apply Hc. now split.
    - destruct (wasButtonClicked_frame b) as (H1 & _ & _ & _ & H5 & _).
      split; congruence.
    - destruct (wasButtonLongPressed_frame b) as (H1 & _ & _ & H4 & _).
      split; congruence.
    - destruct (wasButtonDoubleClicked_frame b) as (H1 & _ & _ & H4 & _).
      split; congruence. }
  destruct Hstep as [Hp' Ht'].
  destruct (IH _ Hp' Hrest) as [I1 I2].
  split; congruence.
Qed.

(** C9: after initialisation, whatever samples and queries come first as
    long as no press is accepted among them, [lastPressTime] is still 0;
    if the sample that accepts the first press then reads a clock below
    [DOUBLE_CLICK_TIME], it sets the double-click flag although there
    was no earlier press. *)
Theorem first_press_sets_double_click
  (cs : list Call) (raw : bool) (now : Z) :
  no_press_accepted cs initial ->
  accepts_press raw now (run cs initial) ->
  0 <= now < DOUBLE_CLICK_TIME ->
  lastPressTime (run cs initial) = 0 /\
  wasDoubleClicked (exec (processButton raw now) (run cs initial)) = true.
Proof.
  intros Hno Hpress Hnow.
  destruct (before_first_press cs initial eq_refl Hno) as [_ Ht].
  simpl in Ht. split; [exact Ht |].
  apply press_branch_taken in Hpress.
  rewrite processButton_wasDoubleClicked, Hpress, Ht.
  rewrite ULongFacts.sub_zero.
  - apply Z.ltb_lt. lia.
  - unfold ULong.in_range, ULong.modulus, ULong.width, DOUBLE_CLICK_TIME in *.
    lia.
Qed.

(** The raw level goes up at 0 ms and the press is accepted at 51 ms. *)
Lemma first_press_sets_double_click_at_51 :
  no_press_accepted [Sample true 0] initial /\
  accepts_press true 51 (run [Sample true 0] initial) /\
  lastPressTime (run [Sample true 0] initial) = 0 /\
  wasDoubleClicked (run [Sample true 0; Sample true 51] initial) = true.
Proof.
  assert (Hno : no_press_accepted [Sample true 0] initial).
  { split; [| exact I]. intros [F G]. vm_compute in F, G. congruence. }
  assert (Hpress : accepts_press true 51 (run [Sample true 0] initial))
    by (split; reflexivity).
  assert (Hnow : 0 <= 51 < DOUBLE_CLICK_TIME)
    by (unfold DOUBLE_CLICK_TIME; lia).
  destruct (first_press_sets_double_click [Sample true 0] true 51
              Hno Hpress Hnow) as [Ht Hflag].
  split; [exact Hno |].
  split; [exact Hpress |].
  split; [exact Ht | exact Hflag].
Defined.

(** * Further properties of the button module *)

(** ** A button nobody touches *)

Lemma idle_call (c : Call) : raw_low c -> call c initial = initial.
Proof.
  destruct c as [raw now | | |]; simpl; intros H; try reflexivity.
  subst raw. unfold initial. unfold_cmd. split_ifs; reflexivity.
Qed.

(** X1: as long as every sample sees the raw level low, the record
    stays in its initial state whatever the clock readings are, every
    query in between returns false, and the press duration is 0. *)
Theorem idle_button_reports_nothing (cs : list Call) :
  Forall raw_low cs ->
  run cs initial = initial /\
  (forall r, In (Some r) (answers cs initial) -> r = false) /\
  (forall t, eval (getButtonPressDuration t) (run cs initial) = 0).
Proof.
  intros Hlow.
  assert (Hrun : run cs initial = initial).
  { induction Hlow as [| c cs Hc _ IH]; [reflexivity |].
    simpl. now rewrite (idle_call c Hc). }
  split; [exact Hrun |]. split; [| now rewrite Hrun].
  induction Hlow as [| c cs Hc Hcs IH]; simpl; [contradiction |].
  rewrite (idle_call c Hc) in *.
  intros r [Hr | Hr].
  - destruct c; cbv in Hr; congruence.
  - apply IH; [| exact Hr].
    clear - Hcs. induction Hcs as [| c cs Hc _ IH]; [reflexivity |].
    simpl. now rewrite (idle_call c Hc).
Qed.

Lemma idle_button_reports_nothing_at_idle_run :
  Forall raw_low idle_run /\
  run idle_run initial = initial /\
  answers idle_run initial =
  [None; Some false; None; Some false; Some false].
Proof.
  assert (H : Forall raw_low idle_run)
    by (repeat constructor).
  split; [exact H |].
  split; [exact (proj1 (idle_button_reports_nothing idle_run H)) |].
  reflexivity.
Defined.

(** ** The click query, as the code has it *)

Lemma raw_low_keeps_lastState (cs : list Call) :
  forall b,
    Forall raw_low cs -> lastState b = false -> lastState (run cs b) = false.
Proof.
  induction cs as [| c cs IH]; intros b Hlow Hb; [exact Hb |].
  inversion Hlow as [| ? ? Hc Hcs]; subst. simpl. apply IH; [exact Hcs |].
  destruct c as [raw now | | |]; simpl in *.
  - subst raw. apply processButton_lastState.
  - unfold exec. now rewrite wasButtonClicked_needs_lastState.
  - now rewrite wasButtonLongPressed_lastState.
  - unfold exec. rewrite wasButtonDoubleClicked_unfold.
    now destruct (wasDoubleClicked b).
Qed.

(** X2: [wasButtonClicked] never returns true twice in a row, and once
    it has returned true it keeps returning false, whatever else is
    called, until a sample sees the raw level high again. *)
Theorem click_query_true_once (b : ButtonState) (cs : list Call) :
  eval wasButtonClicked (exec wasButtonClicked b) = false /\
  (eval wasButtonClicked b = true ->
   Forall raw_low cs ->
   eval wasButtonClicked (run cs (exec wasButtonClicked b)) = false).
Proof.
  split.
  - unfold eval, exec. rewrite (wasButtonClicked_unfold b).
    destruct (negb (isPressed b) && lastState b && negb (wasLongPressed b))
      eqn:E; simpl.
    + now rewrite wasButtonClicked_needs_lastState.
    + rewrite wasButtonClicked_unfold. now rewrite E.
  - intros Htrue Hlow.
    assert (Hl : lastState (exec wasButtonClicked b) = false).
    { unfold eval, exec in *. rewrite wasButtonClicked_unfold in *.
      destruct (negb (isPressed b) && lastState b && negb (wasLongPressed b));
        [reflexivity | discriminate]. }
    unfold eval.
    now rewrite wasButtonClicked_needs_lastState
      by (apply raw_low_keeps_lastState; assumption).
Qed.

Lemma click_query_true_once_during_debounce :
  eval wasButtonClicked (run [Sample true 0] initial) = true /\
  Forall raw_low [ReadLongPressed; Sample false 30; Sample false 500] /\
  eval wasButtonClicked
       (run [ReadLongPressed; Sample false 30; Sample false 500]
            (exec wasButtonClicked (run [Sample true 0] initial))) = false.
Proof.
  assert (H : Forall raw_low [ReadLongPressed; Sample false 30;
                              Sample false 500]) by (repeat constructor).
  split; [reflexivity |]. split; [exact H |].
  exact (proj2 (click_query_true_once (run [Sample true 0] initial) _)
               eq_refl H).
Defined.

(** ** Press times *)

Lemma press_times_after_call (c : Call) (b : ButtonState) :
  (pressedTime (call c b) = pressedTime b /\
   lastPressTime (call c b) = lastPressTime b) \/
  (exists raw now,
      c = Sample raw now /\ accepts_press raw now b /\
      pressedTime (call c b) = now /\ lastPressTime (call c b) = now).
Proof.
  destruct c as [raw now | | |]; simpl.
  - rewrite processButton_pressedTime, processButton_lastPressTime.
    destruct (steady raw now b && raw && negb (isPressed b)) eqn:E.
    + right. exists raw, now. apply press_branch_taken in E. auto.
    + left. auto.
  - left. destruct (wasButtonClicked_frame b) as (_ & _ & _ & H4 & H5 & _).
    auto.
  - left. destruct (wasButtonLongPressed_frame b) as (_ & _ & H3 & H4 & _).
    auto.
  - left. destruct (wasButtonDoubleClicked_frame b) as (_ & _ & H3 & H4 & _).
    auto.
Qed.

(** X3: [pressedTime] and [lastPressTime] are written together and
    nowhere else: a sample that accepts a press sets both to its clock
    reading, any other sample and every query leave both as they were.
    So over any run of samples and queries that starts with the two
    equal, as [initButtons] leaves them, they stay equal. *)
Theorem press_times_agree (cs : list Call) (b : ButtonState) :
  (forall raw now b0,
      (accepts_press raw now b0 ->
       pressedTime (exec (processButton raw now) b0) = now /\
       lastPressTime (exec (processButton raw now) b0) = now) /\
      (~ accepts_press raw now b0 ->
       pressedTime (exec (processButton raw now) b0) = pressedTime b0 /\
       lastPressTime (exec (processButton raw now) b0) = lastPressTime b0)) /\
  (forall b0,
      pressedTime (exec wasButtonClicked b0) = pressedTime b0 /\
      lastPressTime (exec wasButtonClicked b0) = lastPressTime b0 /\
      pressedTime (exec wasButtonLongPressed b0) = pressedTime b0 /\
      lastPressTime (exec wasButtonLongPressed b0) = lastPressTime b0 /\
      pressedTime (exec wasButtonDoubleClicked b0) = pressedTime b0 /\
      lastPressTime (exec wasButtonDoubleClicked b0) = lastPressTime b0) /\
  (pressedTime b = lastPressTime b ->
   pressedTime (run cs b) = lastPressTime (run cs b)).
Proof.
  split; [| split].
  - intros raw now b0.
    rewrite processButton_pressedTime, processButton_lastPressTime.
    destruct (steady raw now b0 && raw && negb (isPressed b0)) eqn:E.
    + split; [now split |].
      intros Hno. apply press_branch_taken in E. contradiction.
    + split; [| now split].
      intros Hyes. apply press_branch_taken in Hyes. congruence.
  - intros b0.
    destruct (wasButtonClicked_frame b0) as (_ & _ & _ & C4 & C5 & _).
    destruct (wasButtonLongPressed_frame b0) as (_ & _ & L3 & L4 & _).
    destruct (wasButtonDoubleClicked_frame b0) as (_ & _ & D3 & D4 & _).
    repeat split; assumption.
  - revert b. induction cs as [| c cs IH]; intros b Hb; [exact Hb |].
    simpl. apply IH.
    destruct (press_times_after_call c b)
      as [[H1 H2] | (raw & now & _ & _ & H1 & H2)]; congruence.
Qed.

(** Two presses: the one accepted at 1100 ms sets both timestamps; the
    release accepted at 300 ms left both at 100. *)
Lemma press_times_agree_after_two_presses :
  pressedTime initial = lastPressTime initial /\
  accepts_press true 1100 (run two_spaced_presses initial) /\
  pressedTime (run (two_spaced_presses ++ [Sample true 1100]) initial) = 1100 /\
  lastPressTime (run (two_spaced_presses ++ [Sample true 1100]) initial) = 1100
  /\
  ~ accepts_press false 300 (run short_press initial) /\
  pressedTime (exec (processButton false 300) (run short_press initial)) = 100
  /\
  lastPressTime (exec (processButton false 300) (run short_press initial))
  = 100.
Proof.
  destruct (press_times_agree (two_spaced_presses ++ [Sample true 1100])
                              initial) as (Hstep & _ & Hrun).
  assert (Hyes : accepts_press true 1100 (run two_spaced_presses initial))
    by (split; reflexivity).
  assert (Hno : ~ accepts_press false 300 (run short_press initial))
    by (intros [F G]; vm_compute in F, G; congruence).
  destruct (proj2 (Hstep false 300 (run short_press initial)) Hno)
    as [K1 K2].
  split; [reflexivity |]. split; [exact Hyes |].
  split; [reflexivity |].
  split; [rewrite <- (Hrun eq_refl); reflexivity |].
  split; [exact Hno |].
  split; [rewrite K1; reflexivity | rewrite K2; reflexivity].
Defined.

Lemma press_times_kept_without_press (cs : list Call) :
  forall b,
    no_press_accepted cs b ->
    pressedTime (run cs b) = pressedTime b /\
    lastPressTime (run cs b) = lastPressTime b.
Proof.
  induction cs as [| c cs IH]; intros b Hno; [now split |].
  destruct Hno as [Hc Hrest]. simpl.
  destruct (IH _ Hrest) as [I1 I2].
  destruct (press_times_after_call c b)
    as [[H1 H2] | (raw & now & -> & Hp & _)].
  - split; congruence.
  - contradiction.
Qed.

(** X4: the double-click test compares the starts of successive
    accepted presses.  When a press is accepted at [p1], no press is
    accepted during the calls that follow, and then a press is accepted
    at [p2], the flag after that sample is [p2 - p1 < DOUBLE_CLICK_TIME]
    in 32-bit arithmetic: releases, their long-press classification and
    queries in between play no part. *)
Theorem double_click_compares_press_starts
  (b : ButtonState) (raw1 : bool) (p1 : Z) (cs : list Call)
  (raw2 : bool) (p2 : Z) :
  accepts_press raw1 p1 b ->
  no_press_accepted cs (exec (processButton raw1 p1) b) ->
  accepts_press raw2 p2 (run cs (exec (processButton raw1 p1) b)) ->
  wasDoubleClicked
    (exec (processButton raw2 p2) (run cs (exec (processButton raw1 p1) b))) =
  (ULong.sub p2 p1 <? DOUBLE_CLICK_TIME).
Proof.
  intros H1 Hno H2.
  apply press_branch_taken in H2.
  rewrite processButton_wasDoubleClicked, H2.
  destruct (press_times_kept_without_press cs _ Hno) as [_ Hkept].
  rewrite Hkept, processButton_lastPressTime.
  apply press_branch_taken in H1. now rewrite H1.
Qed.

Lemma double_click_compares_press_starts_300_apart :
  accepts_press true 100 (run [Sample true 0] initial) /\
  no_press_accepted double_press
    (exec (processButton true 100) (run [Sample true 0] initial)) /\
  accepts_press true 400
    (run double_press
         (exec (processButton true 100) (run [Sample true 0] initial))) /\
  wasDoubleClicked
    (exec (processButton true 400)
          (run double_press
               (exec (processButton true 100) (run [Sample true 0] initial))))
  = true.
Proof.
  assert (H1 : accepts_press true 100 (run [Sample true 0] initial))
    by (split; reflexivity).
  assert (Hno : no_press_accepted double_press
                  (exec (processButton true 100)
                        (run [Sample true 0] initial))).
  { repeat split; try exact I; intros [F G]; vm_compute in F, G; congruence. }
  assert (H2 : accepts_press true 400
                 (run double_press
                      (exec (processButton true 100)
                            (run [Sample true 0] initial))))
    by (split; reflexivity).
  split; [exact H1 |]. split; [exact Hno |]. split; [exact H2 |].
  rewrite (double_click_compares_press_starts _ true 100 double_press true 400
             H1 Hno H2).
  reflexivity.
Defined.

Lemma getButtonPressDuration_unfold (t : Z) (b : ButtonState) :
  getButtonPressDuration t b =
  (if isPressed b then ULong.sub t (pressedTime b) else 0, b).
Proof. now destruct b as [[] ? ? ? ? ? ?]. Qed.

(** X5: a hold is measured from the sample that accepted the press.
    When a press is accepted at [p] and no other press is accepted
    during the calls that follow, the press duration read at [t] while
    the button still counts as pressed is [t - p], and the sample that
    accepts the release at [r] sets the long-press flag to
    [r - p >= LONG_PRESS_TIME], both in 32-bit arithmetic. *)
Theorem hold_measured_from_accepted_press
  (b : ButtonState) (raw1 : bool) (p : Z) (cs : list Call) :
  accepts_press raw1 p b ->
  no_press_accepted cs (exec (processButton raw1 p) b) ->
  let held := run cs (exec (processButton raw1 p) b) in
  (forall t,
      isPressed held = true ->
      eval (getButtonPressDuration t) held = ULong.sub t p) /\
  (forall raw2 r,
      accepts_release raw2 r held ->
      wasLongPressed (exec (processButton raw2 r) held) =
      (LONG_PRESS_TIME <=? ULong.sub r p)).
Proof.
  intros H1 Hno held. subst held.
  destruct (press_times_kept_without_press cs _ Hno) as [Hkept _].
  rewrite processButton_pressedTime in Hkept.
  apply press_branch_taken in H1. rewrite H1 in Hkept.
  split.
  - intros t Hp. unfold eval.
    now rewrite getButtonPressDuration_unfold, Hp, Hkept.
  - intros raw2 r H2. apply release_branch_taken in H2.
    now rewrite processButton_wasLongPressed, H2, Hkept.
Qed.

Lemma hold_measured_from_accepted_press_at_100 :
  accepts_press true 100 (run [Sample true 0] initial) /\
  no_press_accepted held_calls
    (exec (processButton true 100) (run [Sample true 0] initial)) /\
  eval (getButtonPressDuration 1520)
       (run held_calls
            (exec (processButton true 100) (run [Sample true 0] initial)))
  = 1420 /\
  wasLongPressed
    (exec (processButton false 1600)
          (run held_calls
               (exec (processButton true 100) (run [Sample true 0] initial))))
  = true.
Proof.
  assert (H1 : accepts_press true 100 (run [Sample true 0] initial))
    by (split; reflexivity).
  assert (Hno : no_press_accepted held_calls
                  (exec (processButton true 100)
                        (run [Sample true 0] initial))).
  { repeat split; try exact I; intros [F G]; vm_compute in F, G; congruence. }
  destruct (hold_measured_from_accepted_press _ true 100 held_calls H1 Hno)
    as [Hd Hl].
  split; [exact H1 |]. split; [exact Hno |]. split.
  - now rewrite Hd.
  - rewrite (Hl false 1600) by (split; reflexivity). reflexivity.
Defined.

(** ** Under a clock that never goes back *)

Lemma clock_invariant_weaken (t t' : Z) (b : ButtonState) :
  t <= t' -> clock_invariant t b -> clock_invariant t' b.
Proof.
  unfold clock_invariant. intros Hle (H1 & H2 & H3).
  repeat split; try lia. exact H3.
Qed.

Lemma clock_invariant_sample
  (t : Z) (raw : bool) (now : Z) (b : ButtonState) :
  t <= now ->
  clock_invariant t b ->
  clock_invariant now (exec (processButton raw now) b).
Proof.
  unfold clock_invariant. intros Hle (H1 & H2 & H3).
  rewrite processButton_pressedTime, processButton_lastDebounceTime,
    processButton_isPressed, processButton_lastState.
  destruct (steady raw now b) eqn:Es; simpl.
  - unfold steady in Es. apply andb_true_iff in Es. destruct Es as [Er _].
    rewrite Er.
    destruct raw; simpl.
    + destruct (isPressed b); simpl; repeat split; try lia; try congruence.
    + repeat split; try lia; try congruence.
  - destruct (Bool.eqb raw (lastState b)) eqn:Er.
    + apply Bool.eqb_prop in Er. repeat split; try lia.
      intros Hp Hr. apply H3; congruence.
    + repeat split; lia.
Qed.

Lemma clock_invariant_query (t : Z) (c : Call) (b : ButtonState) :
  match c with Sample _ _ => False | _ => True end ->
  clock_invariant t b -> clock_invariant t (call c b).
Proof.
  unfold clock_invariant. intros Hq (H1 & H2 & H3).
  destruct c as [raw now | | |]; [contradiction | | |]; simpl.
  - destruct (wasButtonClicked_frame b) as (F1 & _ & _ & F4 & _ & F6).
    rewrite F1, F4, F6. repeat split; try lia.
    intros Hp Hl. apply H3; [exact Hp |].
    unfold exec in Hl. rewrite wasButtonClicked_unfold in Hl.
    rewrite Hp in Hl. exact Hl.
  - destruct (wasButtonLongPressed_frame b) as (F1 & _ & F3 & _ & F5 & F6).
    rewrite F1, F3, F5, F6. repeat split; try lia. exact H3.
  - destruct (wasButtonDoubleClicked_frame b) as (F1 & _ & F3 & _ & F5 & F6).
    rewrite F1, F3, F5, F6. repeat split; try lia. exact H3.
Qed.

Lemma clock_invariant_run (cs : list Call) :
  forall t b,
    clock_from t cs ->
    clock_invariant t b ->
    clock_invariant (last_clock t cs) (run cs b) /\
    t <= last_clock t cs /\
    (0 <= t -> t < ULong.modulus -> last_clock t cs < ULong.modulus).
Proof.
  induction cs as [| c cs IH]; intros t b Hclock Hinv.
  - simpl. split; [exact Hinv | split; [lia | intros; assumption]].
  - destruct c as [raw now | | |]; simpl in *.
    + destruct Hclock as [Hnow Hrest].
      destruct (IH now _ Hrest (clock_invariant_sample t raw now b
                                  (proj1 Hnow) Hinv)) as (I1 & I2 & I3).
      split; [exact I1 |]. split; [lia |]. intros. apply I3; lia.
    + apply IH; [exact Hclock |].
      exact (clock_invariant_query t ReadClicked b I Hinv).
    + apply IH; [exact Hclock |].
      exact (clock_invariant_query t ReadLongPressed b I Hinv).
    + apply IH; [exact Hclock |].
      exact (clock_invariant_query t ReadDoubleClicked b I Hinv).
Qed.

(** X6: with a clock that starts at 0, never goes back and has not
    wrapped around, every release that is accepted after
    [initButtons], whatever samples and queries came before, ends a hold
    of more than [DEBOUNCE_DELAY]: the long-press test never sees a hold
    of 50 ms or less. *)
Theorem accepted_hold_exceeds_debounce
  (cs : list Call) (raw : bool) (now : Z) :
  clock_from 0 cs ->
  last_clock 0 cs <= now < ULong.modulus ->
  accepts_release raw now (run cs initial) ->
  DEBOUNCE_DELAY < ULong.sub now (pressedTime (run cs initial)).
Proof.
  intros Hclock Hnow Hrel.
  assert (Hinit : clock_invariant 0 initial).
  { unfold clock_invariant, initial. simpl.
    repeat split; try lia; try discriminate. }
  destruct (clock_invariant_run cs 0 initial Hclock Hinit)
    as ((H1 & H2 & H3) & _ & _).
  apply accepts_release_iff in Hrel. destruct Hrel as (Hp & -> & Hs).
  unfold steady in Hs. apply andb_true_iff in Hs. destruct Hs as [Hl Hlt].
  apply Bool.eqb_prop in Hl. symmetry in Hl.
  specialize (H3 Hp Hl).
  apply Z.ltb_lt in Hlt.
  rewrite ULongFacts.sub_monotone in Hlt by (unfold ULong.in_range; lia).
  rewrite ULongFacts.sub_monotone by (unfold ULong.in_range; lia).
  lia.
Qed.

Lemma accepted_hold_exceeds_debounce_at_short_press :
  clock_from 0 short_press /\
  last_clock 0 short_press <= 300 < ULong.modulus /\
  accepts_release false 300 (run short_press initial) /\
  DEBOUNCE_DELAY < ULong.sub 300 (pressedTime (run short_press initial)).
Proof.
  assert (Hc : clock_from 0 short_press).
  { unfold short_press, clock_from, ULong.modulus, ULong.width.
    repeat split; lia. }
  assert (Hn : last_clock 0 short_press <= 300 < ULong.modulus).
  { unfold ULong.modulus, ULong.width. simpl. lia. }
  assert (Hr : accepts_release false 300 (run short_press initial))
    by (split; reflexivity).
  split; [exact Hc |]. split; [exact Hn |]. split; [exact Hr |].
  exact (accepted_hold_exceeds_debounce short_press false 300 Hc Hn Hr).
Defined.

(** ** Sampling twice at one clock reading *)

(** X7: a second [processButton] call with the same raw level at the
    same clock reading changes nothing: whatever the first call did
    (recorded an edge, accepted a press or a release and set a flag),
    the second one leaves every field as the first left it. *)
Theorem processButton_idempotent (raw : bool) (now : Z) (b : ButtonState) :
  exec (processButton raw now) (exec (processButton raw now) b) =
  exec (processButton raw now) b.
Proof.
  destruct b as [pressed long double start previous last changed].
  destruct raw, pressed, last;
    repeat (unfold_cmd;
            rewrite ?ULongFacts.sub_diag;
            change (DEBOUNCE_DELAY <? 0) with false;
            unfold_cmd;
            try match goal with
                | |- context [if ?c then _ else _] => destruct c eqn:?
                end);
    first [ reflexivity
          | congruence
          | match goal with
            | H : (DEBOUNCE_DELAY <? ULong.sub ?x ?x) = true |- _ =>
                rewrite ULongFacts.sub_diag in H; discriminate H
            end ].
Qed.

(** ** The clock wrapping around *)

Lemma sub_later (d a b : Z) :
  ULong.sub (later d a) (later d b) = ULong.sub a b.
Proof.
  unfold ULong.sub, later. rewrite <- Zminus_mod. f_equal. lia.
Qed.

Lemma processButton_later (d : Z) (raw : bool) (now : Z) (b : ButtonState) :
  exec (processButton raw (later d now)) (later_state d b) =
  later_state d (exec (processButton raw now) b).
Proof.
  destruct b as [pressed long double start previous last changed].
  unfold later_state.
  destruct raw, pressed, last;
    repeat (unfold_cmd;
            rewrite ?sub_later, ?ULongFacts.sub_diag;
            change (DEBOUNCE_DELAY <? 0) with false;
            unfold_cmd;
            try match goal with
                | |- context [if ?c then _ else _] => destruct c eqn:?
                end);
    rewrite ?sub_later, ?ULongFacts.sub_diag in *;
    first [reflexivity | congruence | discriminate].
Qed.

Lemma call_later (d : Z) (c : Call) (b : ButtonState) :
  call (later_call d c) (later_state d b) = later_state d (call c b) /\
  answer (later_call d c) (later_state d b) = answer c b.
Proof.
  destruct c as [raw now | | |]; simpl.
  - split; [apply processButton_later | reflexivity].
  - unfold exec, eval. rewrite !wasButtonClicked_unfold.
    destruct b as [[] [] ? ? ? [] ?]; split; reflexivity.
  - unfold exec, eval. rewrite !wasButtonLongPressed_unfold.
    destruct b as [? [] ? ? ? ? ?]; split; reflexivity.
  - unfold exec, eval. rewrite !wasButtonDoubleClicked_unfold.
    destruct b as [? ? [] ? ? ? ?]; split; reflexivity.
Qed.

(** X8: the module only ever looks at differences of clock readings, so
    it does not matter where the 32-bit clock wraps around.  Moving a
    record's timestamps and the clock readings of the calls that follow
    by the same [d], modulo 2^32, gives the same answer to every query,
    the same press durations and the same record moved by [d]. *)
Theorem gestures_survive_clock_wrap (d : Z) (cs : list Call) :
  forall b,
    answers (map (later_call d) cs) (later_state d b) = answers cs b /\
    run (map (later_call d) cs) (later_state d b) = later_state d (run cs b) /\
    (forall t,
        eval (getButtonPressDuration (later d t))
             (run (map (later_call d) cs) (later_state d b)) =
        eval (getButtonPressDuration t) (run cs b)).
Proof.
  induction cs as [| c cs IH]; intros b.
  - simpl. repeat split. intros t. unfold eval.
    rewrite !getButtonPressDuration_unfold. simpl.
    destruct (isPressed b); [apply sub_later | reflexivity].
  - simpl. destruct (call_later d c b) as [Hc Ha].
    rewrite Hc, Ha. destruct (IH (call c b)) as (I1 & I2 & I3).
    split; [now rewrite I1 |]. split; [exact I2 | exact I3].
Qed.

(** ** The three buttons *)

Lemma run_app (cs1 cs2 : list Call) :
  forall b, run (cs1 ++ cs2) b = run cs2 (run cs1 b).
Proof. induction cs1 as [| c cs1 IH]; intros b; simpl; auto. Qed.

(** X9: the three global records never influence one another.  Over
    any sequence of [updateButtonStates] ticks and per-button queries,
    each record ends as the single-button run of its own samples and
    its own queries leaves it. *)
Theorem buttons_independent (cs : list GlobalCall) :
  forall g,
    buttonA (global_run cs g) = run (flat_map calls_of_A cs) (buttonA g) /\
    buttonB (global_run cs g) = run (flat_map calls_of_B cs) (buttonB g) /\
    buttonC (global_run cs g) = run (flat_map calls_of_C cs) (buttonC g).
Proof.
  induction cs as [| c cs IH]; intros g; [repeat split |].
  simpl. rewrite !run_app.
  destruct (IH (global_call c g)) as (IA & IB & IC).
  rewrite IA, IB, IC.
  destruct g as [a b0 c0].
  destruct c; simpl;
    unfold wasButtonAClicked, wasButtonBClicked, wasButtonCClicked,
      wasButtonALongPressed, wasButtonBLongPressed, wasButtonCLongPressed,
      wasButtonADoubleClicked, wasButtonBDoubleClicked,
      wasButtonCDoubleClicked, onButtonA, onButtonB, onButtonC, exec; simpl;
    repeat match goal with
           | |- context [let (_, _) := ?m in _] => destruct m
           end;
    repeat split.
Qed.

(** ** What an accepted transition says about the samples before it *)

Lemma run_snoc (cs : list Call) (c : Call) (b : ButtonState) :
  run (cs ++ [c]) b = call c (run cs b).
Proof. now rewrite run_app. Qed.

Lemma high_since_last_change (cs : list Call) :
  lastState (run cs initial) = true ->
  exists cs1 cs2,
    cs = cs1 ++ Sample true (lastDebounceTime (run cs initial)) :: cs2 /\
    Forall raw_high cs2.
Proof.
  induction cs as [| c cs IH] using rev_ind; [discriminate |].
  rewrite run_snoc. remember (run cs initial) as b eqn:Hrun.
  assert (Hext : lastState b = true ->
                 raw_high c ->
                 exists cs1 cs2,
                   cs ++ [c] = cs1 ++ Sample true (lastDebounceTime b) :: cs2 /\
                   Forall raw_high cs2).
  { intros Hb Hc. destruct (IH Hb) as (cs1 & cs2 & -> & Hhigh).
    exists cs1, (cs2 ++ [c]). split.
    - now rewrite <- app_assoc.
    - apply Forall_app. split; [exact Hhigh | now constructor]. }
  destruct c as [raw now | | |]; cbn [call].
  - rewrite processButton_lastState, processButton_lastDebounceTime.
    intros ->. destruct (lastState b) eqn:Eb; cbn [Bool.eqb].
    + apply Hext; reflexivity.
    + exists cs, []. split; [reflexivity | constructor].
  - intros H. destruct (wasButtonClicked_frame b) as (_ & _ & _ & _ & _ & F).
    rewrite F. apply Hext; [| exact I].
    unfold exec in H. rewrite wasButtonClicked_unfold in H.
    destruct (negb (isPressed b) && lastState b && negb (wasLongPressed b));
      [discriminate H | exact H].
  - destruct (wasButtonLongPressed_frame b) as (_ & _ & _ & _ & F5 & F6).
    rewrite F5, F6. intros H. now apply Hext.
  - destruct (wasButtonDoubleClicked_frame b) as (_ & _ & _ & _ & F5 & F6).
    rewrite F5, F6. intros H. now apply Hext.
Qed.

Lemma low_since_last_change (cs : list Call) :
  isPressed (run cs initial) = true ->
  lastState (run cs initial) = false ->
  exists cs1 cs2,
    cs = cs1 ++ Sample false (lastDebounceTime (run cs initial)) :: cs2 /\
    Forall raw_low cs2.
Proof.
  induction cs as [| c cs IH] using rev_ind; [discriminate |].
  rewrite run_snoc. remember (run cs initial) as b eqn:Hrun.
  assert (Hext : isPressed b = true -> lastState b = false ->
                 raw_low c ->
                 exists cs1 cs2,
                   cs ++ [c] =
                   cs1 ++ Sample false (lastDebounceTime b) :: cs2 /\
                   Forall raw_low cs2).
  { intros Hp Hb Hc. destruct (IH Hp Hb) as (cs1 & cs2 & -> & Hlow).
    exists cs1, (cs2 ++ [c]). split.
    - now rewrite <- app_assoc.
    - apply Forall_app. split; [exact Hlow | now constructor]. }
  destruct c as [raw now | | |]; cbn [call].
  - rewrite processButton_isPressed, processButton_lastState,
      processButton_lastDebounceTime.
    intros Hp ->. destruct (steady false now b) eqn:Es; [discriminate |].
    destruct (lastState b) eqn:Eb; cbn [Bool.eqb].
    + exists cs, []. split; [reflexivity | constructor].
    + apply Hext; auto. reflexivity.
  - destruct (wasButtonClicked_frame b) as (F1 & _ & _ & _ & _ & F6).
    rewrite F1, F6. intros Hp H. apply Hext; [exact Hp | | exact I].
    unfold exec in H. rewrite wasButtonClicked_unfold, Hp in H. exact H.
  - destruct (wasButtonLongPressed_frame b) as (F1 & _ & _ & _ & F5 & F6).
    rewrite F1, F5, F6. intros Hp H. now apply Hext.
  - destruct (wasButtonDoubleClicked_frame b) as (F1 & _ & _ & _ & F5 & F6).
    rewrite F1, F5, F6. intros Hp H. now apply Hext.
Qed.

(** X18: what debouncing guarantees over a whole run after
    [initButtons]: a press is accepted only if some earlier sample saw
    the raw level high more than [DEBOUNCE_DELAY] before, on the 32-bit
    clock, and every sample since saw it high too; and a release only if
    some earlier sample saw the level low more than [DEBOUNCE_DELAY]
    before and every sample since saw it low. *)
Theorem accepted_level_was_held (cs : list Call) (raw : bool) (now : Z) :
  (accepts_press raw now (run cs initial) ->
   exists cs1 t0 cs2,
     cs = cs1 ++ Sample true t0 :: cs2 /\
     Forall raw_high cs2 /\
     raw = true /\
     DEBOUNCE_DELAY < ULong.sub now t0) /\
  (accepts_release raw now (run cs initial) ->
   exists cs1 t0 cs2,
     cs = cs1 ++ Sample false t0 :: cs2 /\
     Forall raw_low cs2 /\
     raw = false /\
     DEBOUNCE_DELAY < ULong.sub now t0).
Proof.
  split; intros H.
  - apply accepts_press_iff in H. destruct H as (_ & -> & Hs).
    unfold steady in Hs. apply andb_true_iff in Hs. destruct Hs as [Hl Ht].
    apply Bool.eqb_prop in Hl. symmetry in Hl.
    destruct (high_since_last_change cs Hl) as (cs1 & cs2 & Hcs & Hhigh).
    exists cs1, (lastDebounceTime (run cs initial)), cs2.
    repeat split; try assumption. now apply Z.ltb_lt.
  - apply accepts_release_iff in H. destruct H as (Hp & -> & Hs).
    unfold steady in Hs. apply andb_true_iff in Hs. destruct Hs as [Hl Ht].
    apply Bool.eqb_prop in Hl. symmetry in Hl.
    destruct (low_since_last_change cs Hp Hl) as (cs1 & cs2 & Hcs & Hlow).
    exists cs1, (lastDebounceTime (run cs initial)), cs2.
    repeat split; try assumption. now apply Z.ltb_lt.
Qed.

(** * Properties of [main.cpp] *)

Module SketchFacts.
Import String Arduino Sketch.

Ltac unfold_run :=
  cbv beta iota zeta delta
    [sendControlCommand handleButtons checkApiStatus commandOfA
     bind ret emit read assign result globals events fst snd
     set_wifiConnected set_currentVideoId set_playbackStatus
     set_lastApiCheck set_lastUpdate
     wifiConnected currentVideoId playbackStatus lastApiCheck lastUpdate
     negb app List.filter is_request].

(** X10: [sendControlCommand] sends nothing without WiFi and exactly
    one POST, whose body names the command, with it; and it leaves all
    globals as they were unless the server answers 200. *)
Theorem command_needs_wifi_and_200 (command : string) (code : Z) (a : App) :
  let r := sendControlCommand command code a in
  (wifiConnected a = false ->
   List.filter is_request (events r) = [] /\ globals r = a) /\
  (wifiConnected a = true ->
   List.filter is_request (events r) = [HttpPOST (jsonPayload command)] /\
   (code <> 200 -> globals r = a)).
Proof.
  destruct a as [online video status checked updated].
  cbv zeta. split; intros H; simpl in H; subst online.
  - split; reflexivity.
  - unfold_run. destruct (code =? 200) eqn:E.
    + split.
      * destruct (String.eqb command "play"); [reflexivity |].
        destruct (String.eqb command "pause"); [reflexivity |].
        destruct (String.eqb command "stop"); reflexivity.
      * intros Hc. apply Z.eqb_eq in E. contradiction.
    + split; reflexivity.
Qed.

(** X11: button A is a play/pause toggle.  With WiFi and a server that
    answers 200, one press leaves the status "paused" if it was
    "playing" and "playing" otherwise, a second press gives the other
    of the two, and the video id is never touched. *)
Theorem buttonA_toggles (a : App) (codeB codeC codeB' codeC' : Z) :
  wifiConnected a = true ->
  let once := globals (handleButtons true false false 200 codeB codeC a) in
  let twice :=
    globals (handleButtons true false false 200 codeB' codeC' once) in
  playbackStatus once =
  (if String.eqb (playbackStatus a) "playing"
   then "paused" else "playing")%string
  /\
  playbackStatus twice =
  (if String.eqb (playbackStatus a) "playing"
   then "playing" else "paused")%string
  /\
  currentVideoId once = currentVideoId a /\
  currentVideoId twice = currentVideoId a.
Proof.
  destruct a as [online video status checked updated].
  simpl. intros ->. unfold_run.
  destruct (String.eqb status "playing"); repeat split.
Qed.

Lemma buttonA_toggles_from_idle :
  wifiConnected (mkApp true "v1" "idle" 0 0) = true /\
  playbackStatus
    (globals (handleButtons true false false 200 0 0
                            (mkApp true "v1" "idle" 0 0))) = "playing"%string /\
  playbackStatus
    (globals
       (handleButtons true false false 200 0 0
          (globals (handleButtons true false false 200 0 0
                                  (mkApp true "v1" "idle" 0 0)))))
  = "paused"%string.
Proof.
  destruct (buttonA_toggles (mkApp true "v1" "idle" 0 0) 0 0 0 0 eq_refl)
    as (H1 & H2 & _).
  split; [reflexivity |]. split; [exact H1 | exact H2].
Defined.

(** X12: buttons are handled in the order A, B, C, one request per
    pressed button, and none without WiFi.  When B is pressed and its
    stop command is answered with 200, the status ends "idle" and the
    video id empty whatever A and C did in the same call. *)
Theorem buttons_in_order_stop_wins
  (pressedA pressedB pressedC : bool) (codeA codeB codeC : Z) (a : App) :
  let r := handleButtons pressedA pressedB pressedC codeA codeB codeC a in
  List.filter is_request (events r) =
  (if wifiConnected a
   then (if pressedA then [HttpPOST (jsonPayload (commandOfA a))] else [])
        ++ (if pressedB then [HttpPOST (jsonPayload "stop")] else [])
        ++ (if pressedC then [HttpPOST (jsonPayload "next")] else [])
   else []) /\
  (wifiConnected a = true -> pressedB = true -> codeB = 200 ->
   playbackStatus (globals r) = "idle"%string /\
   currentVideoId (globals r) = EmptyString).
Proof.
  destruct a as [online video status checked updated].
  cbv zeta. split.
  - destruct online, pressedA, pressedB, pressedC; unfold_run;
      destruct (String.eqb status "playing");
      destruct (codeA =? 200), (codeB =? 200), (codeC =? 200);
      reflexivity.
  - simpl. intros -> -> ->.
    destruct pressedA, pressedC; unfold_run;
      destruct (String.eqb status "playing");
      destruct (codeA =? 200), (codeC =? 200);
      split; reflexivity.
Qed.

Lemma buttons_in_order_stop_wins_all_pressed :
  wifiConnected (mkApp true "v1" "playing" 0 0) = true /\
  List.filter is_request
    (events (handleButtons true true true 200 200 200
                           (mkApp true "v1" "playing" 0 0))) =
  [HttpPOST (jsonPayload "pause"); HttpPOST (jsonPayload "stop");
   HttpPOST (jsonPayload "next")] /\
  playbackStatus
    (globals (handleButtons true true true 200 200 200
                            (mkApp true "v1" "playing" 0 0))) = "idle"%string.
Proof.
  destruct (buttons_in_order_stop_wins true true true 200 200 200
              (mkApp true "v1" "playing" 0 0)) as [Hreq Hstop].
  split; [reflexivity |]. split; [exact Hreq |].
  exact (proj1 (Hstop eq_refl eq_refl eq_refl)).
Defined.

(** X13: [checkApiStatus] makes no request without WiFi, and keeps
    the status and the video id it had unless the server answers 200
    with a body that parses; a body without a session, or with a null
    one, resets them to "idle" and the empty id, and a session replaces
    them with its own. *)
Theorem status_poll_outcomes (code : Z) (parsed : Parsed) (a : App) :
  let r := checkApiStatus code parsed a in
  (wifiConnected a = false -> events r = [] /\ globals r = a) /\
  (code <> 200 \/ parsed = ParseError -> globals r = a) /\
  (wifiConnected a = true -> code = 200 ->
   match parsed with
   | ParseError => globals r = a
   | NoSession =>
       playbackStatus (globals r) = "idle"%string /\
       currentVideoId (globals r) = EmptyString
   | Session status video =>
       playbackStatus (globals r) = status /\
       currentVideoId (globals r) = video
   end).
Proof.
  destruct a as [online video status checked updated].
  cbv zeta. split; [| split].
  - simpl. intros ->. split; reflexivity.
  - intros [Hc | ->]; destruct online; unfold_run; try reflexivity.
    + apply Z.eqb_neq in Hc. now rewrite Hc.
    + now destruct (code =? 200).
  - simpl. intros -> ->. destruct parsed; unfold_run; repeat split.
Qed.

(** ** Waiting for the WiFi link *)

Lemma total_delay_app (l1 l2 : list Event) :
  total_delay (l1 ++ l2) = total_delay l1 + total_delay l2.
Proof.
  unfold total_delay. induction l1 as [| e l1 IH]; simpl; [reflexivity |].
  rewrite IH. lia.
Qed.

Lemma awaitWiFi_spec (status : nat -> bool) (left : nat) :
  forall attempts,
    let n := fst (awaitWiFi status left attempts) in
    let log := snd (awaitWiFi status left attempts) in
    (attempts <= n <= attempts + left)%nat /\
    (forall j, (attempts <= j < n)%nat -> status j = false) /\
    (status n = true \/ n = (attempts + left)%nat) /\
    total_delay log = 500 * Z.of_nat (n - attempts).
Proof.
  induction left as [| left IH]; intros attempts; cbn [awaitWiFi].
  - assert (H : (if status attempts then (attempts, @nil Event)
                 else (attempts, [])) = (attempts, []))
      by now destruct (status attempts).
    rewrite H. cbn [fst snd]. rewrite Nat.sub_diag.
    repeat split; try lia; try reflexivity.
  - destruct (status attempts) eqn:E; cbn [fst snd].
    + rewrite Nat.sub_diag.
      repeat split; try lia; try reflexivity. now left.
    + specialize (IH (S attempts)).
      destruct (awaitWiFi status left (S attempts)) as [n log].
      cbn [fst snd] in *. destruct IH as ((I1 & I2) & I3 & I4 & I5).
      split; [lia |]. split; [| split].
      * intros j Hj. destruct (Nat.eq_dec j attempts) as [-> | Hne];
          [exact E | apply I3; lia].
      * destruct I4 as [I4 | I4]; [now left | right; lia].
      * change (total_delay (Delay 500 :: LcdPrint "." :: log))
          with (500 + (0 + total_delay log)).
        rewrite I5. lia.
Qed.

Lemma awaitWiFi_requests (status : nat -> bool) (left : nat) :
  forall attempts,
    List.filter is_request (snd (awaitWiFi status left attempts)) = [].
Proof.
  induction left as [| left IH]; intros attempts; cbn [awaitWiFi].
  - now destruct (status attempts).
  - destruct (status attempts); [reflexivity |].
    specialize (IH (S attempts)).
    destruct (awaitWiFi status left (S attempts)) as [n log]. exact IH.
Qed.

Lemma setupWiFi_shape (status : nat -> bool) (ip : string) (a : App) :
  let n := fst (awaitWiFi status 30 0) in
  let r := setupWiFi status ip a in
  wifiConnected (globals r) = status (S n) /\
  List.filter is_request (events r) = [] /\
  playbackStatus (globals r) = playbackStatus a /\
  currentVideoId (globals r) = currentVideoId a /\
  total_delay (events r) = 500 * Z.of_nat n + 2000.
Proof.
  cbv zeta. unfold setupWiFi.
  pose proof (awaitWiFi_spec status 30 0) as Hspec. cbv zeta in Hspec.
  pose proof (awaitWiFi_requests status 30 0) as Hreq.
  unfold bind, emit, assign, logged, events, globals.
  destruct (awaitWiFi status 30 0) as [n log]. cbn [fst snd] in *.
  destruct Hspec as (_ & _ & _ & Hdelay).
  rewrite Nat.sub_0_r in Hdelay.
  destruct a as [online video state checked updated].
  assert (Hd : forall post,
             total_delay (LcdSetCursor 10 50
                            :: LcdPrintln "Connecting to WiFi..."
                            :: WiFiBegin :: log ++ post) =
             total_delay log + total_delay post).
  { intros post.
    change (total_delay ([LcdSetCursor 10 50;
                          LcdPrintln "Connecting to WiFi..."; WiFiBegin]
                           ++ log ++ post) =
            total_delay log + total_delay post).
    rewrite !total_delay_app. reflexivity. }
  assert (Hf : forall post,
             List.filter is_request
                         (LcdSetCursor 10 50
                            :: LcdPrintln "Connecting to WiFi..."
                            :: WiFiBegin :: log ++ post) =
             List.filter is_request post).
  { intros post. cbn [List.filter is_request].
    now rewrite filter_app, Hreq. }
  destruct (status (S n));
    cbn [fst snd app set_wifiConnected wifiConnected playbackStatus
         currentVideoId lastApiCheck lastUpdate];
    rewrite Hd, Hf, Hdelay;
    change (total_delay _) with 2000;
    repeat split.
Qed.

Lemma awaitWiFi_ext (status status' : nat -> bool) (left : nat) :
  forall attempts,
    (forall j, (attempts <= j <= attempts + left)%nat ->
               status' j = status j) ->
    awaitWiFi status' left attempts = awaitWiFi status left attempts.
Proof.
  induction left as [| left IH]; intros attempts Hsame; cbn [awaitWiFi];
    rewrite (Hsame attempts) by lia; [reflexivity |].
  destruct (status attempts); [reflexivity |].
  rewrite (IH (S attempts)); [reflexivity |].
  intros j Hj. apply Hsame. lia.
Qed.

(** X14: [setupWiFi] waits at most 30 half seconds.  It calls
    [WiFi.status()] once per test of its loop and once more after the
    loop, calls 0 to 31 at most, and what later calls would return plays
    no part.  The number of waits is the number of the first call that
    reports the link up, or 30 when calls 0 to 30 all report it down,
    and [wifiConnected] becomes what the call after the loop returns.
    So a link that comes up at call [k <= 30] and stays up is reported
    after [k] waits; a link that never comes up is reported down after
    30 waits, 17 seconds with the closing 2 s pause; and a link that is
    up only at call 31 is reported up although the loop ran out.  No
    HTTP request is made and the playback status and the video id are
    not touched. *)
Theorem wifi_setup_bounded (status : nat -> bool) (ip : string) (a : App) :
  let r := setupWiFi status ip a in
  let waits := fst (awaitWiFi status 30 0) in
  (waits <= 30)%nat /\
  (forall j, (j < waits)%nat -> status j = false) /\
  (status waits = true \/ waits = 30%nat) /\
  wifiConnected (globals r) = status (S waits) /\
  total_delay (events r) = 500 * Z.of_nat waits + 2000 /\
  (forall status',
      (forall j, (j <= 31)%nat -> status' j = status j) ->
      setupWiFi status' ip a = r) /\
  2000 <= total_delay (events r) <= 17000 /\
  List.filter is_request (events r) = [] /\
  playbackStatus (globals r) = playbackStatus a /\
  currentVideoId (globals r) = currentVideoId a /\
  (forall k,
      (k <= 30)%nat ->
      (forall j, (j < k)%nat -> status j = false) ->
      (forall j, (k <= j)%nat -> status j = true) ->
      wifiConnected (globals r) = true /\
      total_delay (events r) = 500 * Z.of_nat k + 2000) /\
  ((forall j, status j = false) ->
   wifiConnected (globals r) = false /\
   total_delay (events r) = 17000) /\
  ((forall j, (j <= 30)%nat -> status j = false) ->
   status 31%nat = true ->
   wifiConnected (globals r) = true /\
   total_delay (events r) = 17000).
Proof.
  cbv zeta.
  destruct (setupWiFi_shape status ip a) as (Hwifi & Hreq & Hs & Hv & Hdelay).
  pose proof (awaitWiFi_spec status 30 0) as Hspec. cbv zeta in Hspec.
  destruct Hspec as ((_ & Hn) & Hfalse & Hend & _).
  assert (Hext : forall status',
             (forall j, (j <= 31)%nat -> status' j = status j) ->
             setupWiFi status' ip a = setupWiFi status ip a).
  { intros status' Hsame. unfold setupWiFi, bind, logged.
    rewrite (awaitWiFi_ext status status' 30 0)
      by (intros j Hj; apply Hsame; lia).
    destruct (awaitWiFi status 30 0) as [n log]. cbn [fst snd] in *.
    now rewrite (Hsame (S n)) by lia. }
  set (n := fst (awaitWiFi status 30 0)) in *.
  rewrite Hwifi, Hdelay.
  split; [lia |].
  split; [intros j Hj; apply Hfalse; lia |].
  split; [destruct Hend as [He | He]; [now left | right; lia] |].
  split; [reflexivity |]. split; [reflexivity |].
  split; [exact Hext |].
  split; [lia |]. split; [exact Hreq |].
  split; [exact Hs |]. split; [exact Hv |]. split; [| split].
  - intros k Hk Hlow Hup.
    assert (Hnk : n = k).
    { destruct (Nat.lt_trichotomy n k) as [Hlt | [Heq | Hgt]]; auto.
      - destruct Hend as [He | He]; [| lia].
        rewrite (Hlow n Hlt) in He. discriminate.
      - specialize (Hfalse k ltac:(lia)). rewrite (Hup k) in Hfalse by lia.
        discriminate. }
    rewrite Hnk. split; [apply Hup; lia | reflexivity].
  - intros Hnever. split; [apply Hnever |].
    destruct Hend as [He | He]; [rewrite Hnever in He; discriminate |].
    rewrite He. reflexivity.
  - intros Hdown Hlate.
    assert (Hn30 : n = 30%nat).
    { destruct Hend as [He | He]; [| lia].
      rewrite (Hdown n) in He by lia. discriminate. }
    rewrite Hn30. split; [exact Hlate | reflexivity].
Qed.

(** The link is up only at call 31, the one after the loop. *)
Lemma wifi_setup_bounded_late_link :
  (forall j, (j <= 30)%nat -> up_from 31 j = false) /\
  up_from 31 31 = true /\
  wifiConnected (globals (setupWiFi (up_from 31) "10.0.0.2" boot)) = true /\
  total_delay (events (setupWiFi (up_from 31) "10.0.0.2" boot)) = 17000.
Proof.
  assert (Hdown : forall j, (j <= 30)%nat -> up_from 31 j = false).
  { intros j Hj. unfold up_from. apply Nat.leb_gt. lia. }
  assert (Hlate : up_from 31 31 = true) by reflexivity.
  destruct (wifi_setup_bounded (up_from 31) "10.0.0.2" boot)
    as (_ & _ & _ & _ & _ & _ & _ & _ & _ & _ & _ & _ & Hcase).
  destruct (Hcase Hdown Hlate) as [H1 H2].
  split; [exact Hdown |]. split; [exact Hlate |].
  split; [exact H1 | exact H2].
Defined.

(** ** Without WiFi *)

Lemma wifi_bound_bind {A B : Type} (m : Run A) (k : A -> Run B) :
  wifi_bound m -> (forall x, wifi_bound (k x)) -> wifi_bound (bind m k).
Proof.
  intros Hm Hk a. unfold bind, globals, events.
  specialize (Hm a). unfold globals, events in Hm.
  destruct (m a) as [[x a1] log1]. cbn [fst snd] in Hm.
  specialize (Hk x a1). unfold globals, events in Hk.
  destruct (k x a1) as [[y a2] log2]. cbn [fst snd] in *.
  destruct Hm as [Hm1 Hm2], Hk as [Hk1 Hk2].
  split; [congruence |].
  intros Hoff. destruct (Hm2 Hoff) as (M1 & M2 & M3).
  destruct (Hk2 ltac:(congruence)) as (K1 & K2 & K3).
  rewrite filter_app, M1, K1. repeat split; congruence.
Qed.

Lemma wifi_bound_ret {A : Type} (x : A) : wifi_bound (ret x).
Proof. intros a. repeat split. Qed.

Lemma wifi_bound_emit (e : Event) :
  is_request e = false -> wifi_bound (emit e).
Proof.
  intros He a. unfold emit, globals, events. cbn [fst snd List.filter].
  rewrite He. repeat split.
Qed.

Lemma wifi_bound_read {A : Type} (f : App -> A) : wifi_bound (read f).
Proof. intros a. repeat split. Qed.

Lemma wifi_bound_sendControlCommand (command : string) (code : Z) :
  wifi_bound (sendControlCommand command code).
Proof.
  intros [online video status checked updated].
  destruct online; unfold_run.
  - split; [| discriminate].
    destruct (code =? 200); [| reflexivity].
    destruct (String.eqb command "play"); [reflexivity |].
    destruct (String.eqb command "pause"); [reflexivity |].
    destruct (String.eqb command "stop"); reflexivity.
  - repeat split.
Qed.

Lemma wifi_bound_checkApiStatus (code : Z) (parsed : Parsed) :
  wifi_bound (checkApiStatus code parsed).
Proof.
  intros [online video status checked updated].
  destruct online; unfold_run.
  - split; [| discriminate].
    destruct (code =? 200); [| reflexivity].
    destruct parsed; reflexivity.
  - repeat split.
Qed.

Lemma wifi_bound_updateDisplay (t1 t2 : Z) : wifi_bound (updateDisplay t1 t2).
Proof.
  intros [online video status checked updated].
  unfold updateDisplay. unfold_run.
  destruct (ULong.sub t1 updated <? 1000); [repeat split |].
  destruct online; unfold_run.
  - split; [| discriminate].
    destruct (String.eqb status "playing"), (String.eqb status "paused"),
      (String.eqb video EmptyString); reflexivity.
  - repeat split.
Qed.

Lemma wifi_bound_handleButtons (pA pB pC : bool) (cA cB cC : Z) :
  wifi_bound (handleButtons pA pB pC cA cB cC).
Proof.
  unfold handleButtons.
  repeat first
    [ apply wifi_bound_sendControlCommand
    | apply wifi_bound_ret
    | apply wifi_bound_read
    | apply wifi_bound_emit; reflexivity
    | match goal with
      | |- wifi_bound (if ?c then _ else _) => destruct c
      end
    | apply wifi_bound_bind; [| intros ?] ].
Qed.

Lemma wifi_bound_loop (i : Inputs) : wifi_bound (loop i).
Proof.
  unfold loop.
  repeat first
    [ apply wifi_bound_handleButtons
    | apply wifi_bound_checkApiStatus
    | apply wifi_bound_updateDisplay
    | apply wifi_bound_ret
    | apply wifi_bound_read
    | apply wifi_bound_emit; reflexivity
    | match goal with
      | |- wifi_bound (if ?c then _ else _) => destruct c
      end
    | apply wifi_bound_bind; [| intros ?] ].
  intros a. repeat split.
Qed.
Lemma wifi_bound_loops (inputs : list Inputs) : wifi_bound (loops inputs).
Proof.
  induction inputs as [| i rest IH]; cbn [loops].
  - apply wifi_bound_ret.
  - apply wifi_bound_bind; [apply wifi_bound_loop | intros _; exact IH].
Qed.

(** X15: the sketch never looks at the radio again after [setupWiFi]:
    no pass of [loop] changes [wifiConnected], and while it is false no
    pass sends a request or changes the playback status or the video
    id, whatever buttons are pressed.  So when the link never came up
    during [setup], the whole sketch sends no request at all and stays
    "idle". *)
Theorem no_wifi_no_requests
  (status : nat -> bool) (ip : string) (inputs : list Inputs) :
  (forall a,
      wifiConnected (globals (loops inputs a)) = wifiConnected a) /\
  (forall a,
      wifiConnected a = false ->
      List.filter is_request (events (loops inputs a)) = [] /\
      playbackStatus (globals (loops inputs a)) = playbackStatus a /\
      currentVideoId (globals (loops inputs a)) = currentVideoId a) /\
  ((forall j, status j = false) ->
   List.filter is_request (events (sketch status ip inputs boot)) = [] /\
   playbackStatus (globals (sketch status ip inputs boot)) = "idle"%string /\
   currentVideoId (globals (sketch status ip inputs boot)) = EmptyString).
Proof.
  split; [intros a; apply wifi_bound_loops |].
  split; [intros a; apply wifi_bound_loops |].
  intros Hnever.
  destruct (setupWiFi_shape status ip boot)
    as (Hoff & Hreq & Hstatus & Hvideo & _).
  rewrite Hnever in Hoff.
  unfold sketch, setup, bind, emit, globals, events in *.
  destruct (setupWiFi status ip boot) as [[u a1] log1].
  cbn [fst snd app] in *.
  pose proof (wifi_bound_loops inputs a1) as [_ Hloops].
  unfold globals, events in Hloops.
  destruct (loops inputs a1) as [[v a2] log2]. cbn [fst snd] in *.
  destruct (Hloops Hoff) as (L1 & L2 & L3).
  cbn [List.filter is_request]. rewrite !filter_app, Hreq.
  cbn [List.filter is_request app]. rewrite L1.
  split; [reflexivity |].
  split; [rewrite L2; exact Hstatus | rewrite L3; exact Hvideo].
Qed.

Lemma no_wifi_no_requests_with_all_buttons :
  (forall j : nat, (fun _ : nat => false) j = false) /\
  List.filter is_request
    (events (sketch (fun _ => false) "0.0.0.0"
                    [mkInputs true true true 200 200 200
                              6000 200 (Session "playing" "v1") 6010
                              6020 6030] boot)) = [].
Proof.
  assert (H : forall j : nat, (fun _ : nat => false) j = false)
    by reflexivity.
  split; [exact H |].
  exact (proj1 (proj2 (proj2 (no_wifi_no_requests (fun _ => false) "0.0.0.0"
                                 [mkInputs true true true 200 200 200
                                           6000 200 (Session "playing" "v1")
                                           6010 6020 6030])) H)).
Defined.

(** ** Buttons and the status poll in one pass *)

Lemma globals_bind {A B : Type} (m : Run A) (k : A -> Run B) (a : App) :
  globals (bind m k a) = globals (k (result (m a)) (globals (m a))).
Proof.
  unfold bind, globals, result.
  destruct (m a) as [[x a1] log1]. cbn [fst snd].
  now destruct (k x a1) as [[y a2] log2].
Qed.

Lemma keeps_bind {A B C : Type} (f : App -> C) (m : Run A) (k : A -> Run B) :
  keeps f m -> (forall x, keeps f (k x)) -> keeps f (bind m k).
Proof.
  intros Hm Hk a. rewrite globals_bind, Hk. apply Hm.
Qed.

Lemma keeps_ret {A C : Type} (f : App -> C) (x : A) : keeps f (ret x).
Proof. intros a. reflexivity. Qed.

Lemma keeps_emit {C : Type} (f : App -> C) (e : Event) : keeps f (emit e).
Proof. intros a. reflexivity. Qed.

Lemma keeps_read {A C : Type} (f : App -> C) (g : App -> A) :
  keeps f (read g).
Proof. intros a. reflexivity. Qed.

Lemma sendControlCommand_keeps_clocks (command : string) (code : Z) :
  keeps lastApiCheck (sendControlCommand command code).
Proof.
  intros [online video status checked updated].
  destruct online; unfold_run; [| reflexivity].
  destruct (code =? 200); [| reflexivity].
  destruct (String.eqb command "play"); [reflexivity |].
  destruct (String.eqb command "pause"); [reflexivity |].
  destruct (String.eqb command "stop"); reflexivity.
Qed.

Lemma handleButtons_keeps_clocks (pA pB pC : bool) (cA cB cC : Z) :
  keeps lastApiCheck (handleButtons pA pB pC cA cB cC).
Proof.
  unfold handleButtons.
  repeat first
    [ apply sendControlCommand_keeps_clocks
    | apply keeps_ret
    | apply keeps_read
    | apply keeps_emit
    | match goal with
      | |- keeps _ (if ?c then _ else _) => destruct c
      end
    | apply keeps_bind; [| intros ?] ].
Qed.

Lemma updateDisplay_keeps_status (t1 t2 : Z) :
  keeps playbackStatus (updateDisplay t1 t2) /\
  keeps currentVideoId (updateDisplay t1 t2) /\
  keeps lastApiCheck (updateDisplay t1 t2).
Proof.
  repeat split; intros [online video status checked updated];
    unfold updateDisplay; unfold_run;
    (destruct (ULong.sub t1 updated <? 1000); [reflexivity |]);
    destruct online; unfold_run;
    try reflexivity;
    destruct (String.eqb status "playing"), (String.eqb status "paused"),
      (String.eqb video EmptyString); reflexivity.
Qed.

(** X19: the server has the last word within a pass of [loop].  With
    WiFi, when the status poll is due and is answered 200 with a
    session, the pass ends with that session's playback status and
    video id, whatever the buttons did earlier in the same pass, and
    with [lastApiCheck] at the clock reading taken after the poll. *)
Theorem server_status_wins (i : Inputs) (a : App) (status video : string) :
  wifiConnected a = true ->
  API_CHECK_INTERVAL < ULong.sub (clockAtCheck i) (lastApiCheck a) ->
  statusCode i = 200 ->
  statusBody i = Session status video ->
  playbackStatus (globals (loop i a)) = status /\
  currentVideoId (globals (loop i a)) = video /\
  lastApiCheck (globals (loop i a)) = clockAfterCheck i.
Proof.
  intros Hon Hdue Hcode Hbody.
  destruct (updateDisplay_keeps_status (clockAtDisplay i) (clockAfterDisplay i))
    as (Ks & Kv & Kc).
  unfold loop.
  rewrite !globals_bind. cbn [emit globals result fst snd].
  set (a1 := globals (handleButtons (pressedA i) (pressedB i) (pressedC i)
                                    (codeA i) (codeB i) (codeC i) a)).
  assert (Hon1 : wifiConnected a1 = true).
  { unfold a1. now rewrite (proj1 (wifi_bound_handleButtons _ _ _ _ _ _ a)). }
  assert (Hc1 : lastApiCheck a1 = lastApiCheck a)
    by apply handleButtons_keeps_clocks.
  change (result (read lastApiCheck a1)) with (lastApiCheck a1).
  change (globals (read lastApiCheck a1)) with a1.
  rewrite Hc1. apply Z.ltb_lt in Hdue. rewrite Hdue.
  rewrite !globals_bind.
  rewrite Ks, Kv, Kc.
  rewrite Hcode, Hbody.
  clearbody a1. destruct a1 as [online vid state checked updated].
  cbn [wifiConnected] in Hon1. subst online.
  repeat split.
Qed.

(** Button A pauses a playing video, the command is answered 200, and
    the poll of the same pass still reports "playing". *)
Lemma server_status_wins_over_pause :
  playbackStatus
    (globals (handleButtons true false false 200 0 0
                            (mkApp true "v1" "playing" 0 0)))
  = "paused"%string /\
  playbackStatus
    (globals (loop (mkInputs true false false 200 0 0
                             6000 200 (Session "playing" "v2") 6010
                             6020 6030)
                   (mkApp true "v1" "playing" 0 0)))
  = "playing"%string /\
  currentVideoId
    (globals (loop (mkInputs true false false 200 0 0
                             6000 200 (Session "playing" "v2") 6010
                             6020 6030)
                   (mkApp true "v1" "playing" 0 0)))
  = "v2"%string.
Proof.
  destruct (server_status_wins
              (mkInputs true false false 200 0 0
                        6000 200 (Session "playing" "v2") 6010 6020 6030)
              (mkApp true "v1" "playing" 0 0) "playing" "v2"
              eq_refl eq_refl eq_refl eq_refl) as (H1 & H2 & _).
  split; [reflexivity |]. split; [exact H1 | exact H2].
Defined.

End SketchFacts.

(** * Properties of [examples/auto_discover.cpp] *)

Module DiscoverFacts.
Import String Arduino Discover.

Lemma indexOf_at_start (rest : string) :
  indexOf ("api_status" +++ rest) "api_status" = 0.
Proof.
  assert (H : prefix "api_status" ("api_status" +++ rest) = true).
  { apply prefix_correct. now destruct rest. }
  unfold indexOf. cbn [append index] in *. now rewrite H.
Qed.

Lemma scan_step (http_get : string -> Z * string) (count : nat) (i : Z) :
  answers_api http_get i = false ->
  fst (scan http_get (S count) i) = fst (scan http_get count (i + 1)) /\
  requests_made (snd (scan http_get (S count) i)) =
  S (requests_made (snd (scan http_get count (i + 1)))) /\
  total_delay (snd (scan http_get (S count) i)) =
  100 + total_delay (snd (scan http_get count (i + 1))).
Proof.
  unfold answers_api. cbn [scan].
  destruct (http_get (test_url i)) as [code body].
  destruct (scan http_get count (i + 1)) as [found log].
  destruct (code =? 200); cbn [andb].
  - intros ->. cbn [fst snd]. unfold requests_made.
    repeat split.
  - intros _. cbn [fst snd]. unfold requests_made. repeat split.
Qed.

Lemma scan_hit (http_get : string -> Z * string) (count : nat) (i : Z) :
  answers_api http_get i = true ->
  fst (scan http_get (S count) i) = test_ip i /\
  requests_made (snd (scan http_get (S count) i)) = 1%nat /\
  total_delay (snd (scan http_get (S count) i)) = 0.
Proof.
  unfold answers_api. cbn [scan].
  destruct (http_get (test_url i)) as [code body].
  destruct (code =? 200); cbn [andb]; [| discriminate].
  intros ->. repeat split.
Qed.

Lemma scan_first (http_get : string -> Z * string) (count : nat) :
  forall i k,
    i <= k < i + Z.of_nat count ->
    answers_api http_get k = true ->
    (forall j, i <= j < k -> answers_api http_get j = false) ->
    fst (scan http_get count i) = test_ip k /\
    requests_made (snd (scan http_get count i)) = Z.to_nat (k - i + 1) /\
    total_delay (snd (scan http_get count i)) = 100 * (k - i).
Proof.
  induction count as [| count IH]; intros i k Hk Hyes Hno; [lia |].
  destruct (Z.eq_dec i k) as [-> | Hne].
  - destruct (scan_hit http_get count k Hyes) as (H1 & H2 & H3).
    rewrite H1, H2, H3. repeat split; [f_equal | ]; lia.
  - destruct (scan_step http_get count i (Hno i ltac:(lia))) as (H1 & H2 & H3).
    destruct (IH (i + 1) k ltac:(lia) Hyes ltac:(intros; apply Hno; lia))
      as (I1 & I2 & I3).
    rewrite H1, H2, H3, I1, I2, I3. repeat split; lia.
Qed.

Lemma scan_none (http_get : string -> Z * string) (count : nat) :
  forall i,
    (forall j, i <= j < i + Z.of_nat count -> answers_api http_get j = false) ->
    fst (scan http_get count i) = EmptyString /\
    requests_made (snd (scan http_get count i)) = count /\
    total_delay (snd (scan http_get count i)) = 100 * Z.of_nat count.
Proof.
  induction count as [| count IH]; intros i Hno; [repeat split |].
  destruct (scan_step http_get count i (Hno i ltac:(lia))) as (H1 & H2 & H3).
  destruct (IH (i + 1) ltac:(intros; apply Hno; lia)) as (I1 & I2 & I3).
  rewrite H1, H2, H3, I1, I2, I3. repeat split; lia.
Qed.

Lemma findRaspberryPi_scan (http_get : string -> Z * string) :
  fst (findRaspberryPi http_get) = fst (scan http_get 254 1) /\
  requests_made (snd (findRaspberryPi http_get)) =
  requests_made (snd (scan http_get 254 1)) /\
  total_delay (snd (findRaspberryPi http_get)) =
  total_delay (snd (scan http_get 254 1)).
Proof.
  unfold findRaspberryPi.
  change (Z.to_nat (end_ip - start_ip + 1)) with 254%nat.
  change start_ip with 1.
  destruct (scan http_get 254 1) as [found log]. repeat split.
Qed.

(** X16: [findRaspberryPi] probes the hosts 192.168.10.1 to
    192.168.10.254 in order and returns the address of the first one
    that answers 200 with [api_status] in the body at an index above 0,
    after as many requests as that host's number and a 100 ms pause per
    host passed over; the address is never empty.  If no host
    qualifies it returns the empty string after 254 requests and 25.4
    seconds of pauses. *)
Theorem discovery_returns_first_host (http_get : string -> Z * string) :
  let found := fst (findRaspberryPi http_get) in
  let log := snd (findRaspberryPi http_get) in
  (forall k,
      1 <= k <= 254 ->
      answers_api http_get k = true ->
      (forall j, 1 <= j < k -> answers_api http_get j = false) ->
      found = test_ip k /\
      found <> EmptyString /\
      requests_made log = Z.to_nat k /\
      total_delay log = 100 * (k - 1)) /\
  ((forall j, 1 <= j <= 254 -> answers_api http_get j = false) ->
   found = EmptyString /\
   requests_made log = 254%nat /\
   total_delay log = 25400).
Proof.
  cbv zeta.
  destruct (findRaspberryPi_scan http_get) as (-> & -> & ->).
  split.
  - intros k Hk Hyes Hno.
    destruct (scan_first http_get 254 1 k ltac:(lia) Hyes Hno)
      as (H1 & H2 & H3).
    rewrite H1, H2, H3. repeat split; [discriminate | f_equal; lia].
  - intros Hno.
    destruct (scan_none http_get 254 1 ltac:(intros; apply Hno; lia))
      as (H1 & H2 & H3).
    rewrite H1, H2, H3. repeat split.
Qed.

(** Only 192.168.10.7 answers: it is found at the seventh request. *)
Lemma discovery_returns_first_host_7 :
  answers_api only_host_7 7 = true /\
  fst (findRaspberryPi only_host_7) = "192.168.10.7"%string /\
  requests_made (snd (findRaspberryPi only_host_7)) = 7%nat /\
  total_delay (snd (findRaspberryPi only_host_7)) = 600.
Proof.
  assert (Hyes : answers_api only_host_7 7 = true) by (vm_compute; reflexivity).
  assert (Hno : forall j, 1 <= j < 7 -> answers_api only_host_7 j = false).
  { intros j Hj.
    assert (Hcases : j = 1 \/ j = 2 \/ j = 3 \/ j = 4 \/ j = 5 \/ j = 6)
      by lia.
    destruct Hcases as [-> | [-> | [-> | [-> | [-> | ->]]]]];
      vm_compute; reflexivity. }
  destruct (proj1 (discovery_returns_first_host only_host_7) 7
                  ltac:(lia) Hyes Hno) as (H1 & _ & H2 & H3).
  split; [exact Hyes |]. split; [exact H1 |]. split; [exact H2 | exact H3].
Defined.

Lemma String_of_int_inj (i j : Z) :
  0 < i -> 0 < j -> String_of_int i = String_of_int j -> i = j.
Proof.
  intros Hi Hj H. unfold String_of_int in H.
  assert (Hd : forall z, 0 < z ->
                 DecimalString.NilZero.int_of_string
                   (DecimalString.NilZero.string_of_int (Z.to_int z)) =
                 Some (Z.to_int z)).
  { intros z Hz. destruct z as [| p | p]; try lia.
    apply DecimalString.NilZero.isi; cbn [Z.to_int]; intros [= E];
      now apply (DecimalPos.Unsigned.to_uint_nonnil p). }
  apply DecimalZ.to_int_inj.
  assert (E : Some (Z.to_int i) = Some (Z.to_int j))
    by (rewrite <- (Hd i Hi), <- (Hd j Hj); now rewrite H).
  now injection E.
Qed.

Lemma append_inj (p s1 s2 : string) : p +++ s1 = p +++ s2 -> s1 = s2.
Proof.
  induction p as [| c p IH]; cbn [append]; [auto |].
  intros [= H]. now apply IH.
Qed.

Lemma test_ip_inj (i j : Z) : 0 < i -> 0 < j -> test_ip i = test_ip j -> i = j.
Proof.
  unfold test_ip. intros Hi Hj H.
  apply append_inj in H. apply append_inj in H.
  now apply String_of_int_inj.
Qed.

Lemma scan_result (http_get : string -> Z * string) (count : nat) :
  forall i,
    fst (scan http_get count i) = EmptyString \/
    exists k, i <= k < i + Z.of_nat count /\
              answers_api http_get k = true /\
              fst (scan http_get count i) = test_ip k.
Proof.
  induction count as [| count IH]; intros i; [now left |].
  destruct (answers_api http_get i) eqn:E.
  - right. exists i. split; [lia |]. split; [exact E |].
    apply (scan_hit http_get count i E).
  - rewrite (proj1 (scan_step http_get count i E)).
    destruct (IH (i + 1)) as [H | (k & Hk & Hyes & H)]; [now left |].
    right. exists k. split; [lia |]. now split.
Qed.

Lemma scan_skip (http_get : string -> Z * string) (count : nat) :
  forall i k,
    i <= k < i + Z.of_nat count ->
    (forall j, i <= j <= k -> answers_api http_get j = false) ->
    fst (scan http_get count i) =
    fst (scan http_get (count - Z.to_nat (k - i + 1)) (k + 1)).
Proof.
  induction count as [| count IH]; intros i k Hk Hno; [lia |].
  rewrite (proj1 (scan_step http_get count i (Hno i ltac:(lia)))).
  destruct (Z.eq_dec i k) as [-> | Hne].
  - replace (S count - Z.to_nat (k - k + 1))%nat with count by lia.
    reflexivity.
  - rewrite (IH (i + 1) k ltac:(lia) ltac:(intros; apply Hno; lia)).
    f_equal. f_equal. lia.
Qed.

Lemma marker_at_start_fails_test
  (http_get : string -> Z * string) (i : Z) (rest : string) :
  http_get (test_url i) = (200, "api_status" +++ rest) ->
  answers_api http_get i = false.
Proof.
  intros H. unfold answers_api. rewrite H.
  now rewrite indexOf_at_start.
Qed.

(** X17: the body test is [indexOf("api_status") > 0], so a host in
    the range that answers 200 with a body that begins with
    [api_status] is passed over by [findRaspberryPi]: its address is
    never the result; when no host before it qualifies the result is
    what the scan of the hosts after it gives; and when no other host
    qualifies the result is the empty string. *)
Theorem body_starting_with_marker_is_passed_over
  (http_get : string -> Z * string) (k : Z) (rest : string) :
  1 <= k <= 254 ->
  http_get (test_url k) = (200, "api_status" +++ rest) ->
  fst (findRaspberryPi http_get) <> test_ip k /\
  ((forall j, 1 <= j < k -> answers_api http_get j = false) ->
   fst (findRaspberryPi http_get) =
   fst (scan http_get (Z.to_nat (254 - k)) (k + 1))) /\
  ((forall j, 1 <= j <= 254 -> j <> k -> answers_api http_get j = false) ->
   fst (findRaspberryPi http_get) = EmptyString).
Proof.
  intros Hk Hbody.
  pose proof (marker_at_start_fails_test http_get k rest Hbody) as Hfail.
  rewrite (proj1 (findRaspberryPi_scan http_get)).
  split; [| split].
  - destruct (scan_result http_get 254 1) as [-> | (k' & Hk' & Hyes & ->)].
    + discriminate.
    + intros H. apply test_ip_inj in H; [| lia | lia].
      subst k'. congruence.
  - intros Hno.
    rewrite (scan_skip http_get 254 1 k ltac:(lia)).
    + f_equal. f_equal. lia.
    + intros j Hj. destruct (Z.eq_dec j k) as [-> | Hne];
        [exact Hfail | apply Hno; lia].
  - intros Hno.
    apply (scan_none http_get 254 1).
    intros j Hj. destruct (Z.eq_dec j k) as [-> | Hne];
      [exact Hfail | apply Hno; lia].
Qed.

(** Host 7 answers with such a body and host 9 with a JSON body: the
    scan passes host 7 over and returns host 9. *)
Lemma bare_host_7_is_passed_over :
  1 <= 7 <= 254 /\
  bare_7_json_9 (test_url 7) = (200, "api_status" +++ ": healthy") /\
  fst (findRaspberryPi bare_7_json_9) <> test_ip 7 /\
  fst (findRaspberryPi bare_7_json_9) = "192.168.10.9"%string.
Proof.
  assert (Hk : 1 <= 7 <= 254) by lia.
  assert (Hb : bare_7_json_9 (test_url 7) =
               (200, "api_status" +++ ": healthy")) by reflexivity.
  assert (Hno : forall j, 1 <= j < 7 -> answers_api bare_7_json_9 j = false).
  { intros j Hj.
    assert (Hcases : j = 1 \/ j = 2 \/ j = 3 \/ j = 4 \/ j = 5 \/ j = 6)
      by lia.
    destruct Hcases as [-> | [-> | [-> | [-> | [-> | ->]]]]];
      vm_compute; reflexivity. }
  destruct (body_starting_with_marker_is_passed_over bare_7_json_9 7
              ": healthy" Hk Hb) as (Hne & Hskip & _).
  split; [exact Hk |]. split; [exact Hb |]. split; [exact Hne |].
  rewrite (Hskip Hno). vm_compute. reflexivity.
Defined.

End DiscoverFacts.
